(** * Orda travel-recommendation service: retrieval orchestration

    A shallow embedding of the profile store, the demand planner, the
    retrieval client, the batch splitter and the category dispatcher of
    [smart_chatbot.py], [demo_personalized_chatbot.py] and
    [simple_jeju_chatbot/single_chain_baseline.py], with the properties
    the design document states about them. *)

From Stdlib Require Import ZArith NArith List String Ascii DecimalString Lia.
From stdpp Require Import base option list gmap strings.

Local Open Scope Z_scope.

(** ** Python text

    A Python [str] is a sequence of Unicode code points.  Literals of the
    source are written as UTF-8 string literals and decoded by [txt]. *)

Module PyText.

Definition pystr : Type := list N.

(** Decoder state: how many continuation bytes are still expected and the
    bits gathered so far. *)
Fixpoint utf8_decode (need : nat) (acc : N) (bytes : list N) : pystr :=
  match bytes with
  | [] => []
  | b :: rest =>
      match need with
      | O =>
          if (b <? 128)%N then b :: utf8_decode 0 0%N rest
          else if (b <? 224)%N then utf8_decode 1 (N.land b 31) rest
          else if (b <? 240)%N then utf8_decode 2 (N.land b 15) rest
          else utf8_decode 3 (N.land b 7) rest
      | S O => (acc * 64 + N.land b 63)%N :: utf8_decode 0 0%N rest
      | S n => utf8_decode n (acc * 64 + N.land b 63)%N rest
      end
  end.

Definition txt (s : string) : pystr :=
  utf8_decode 0 0%N (map N_of_ascii (list_ascii_of_string s)).

(** [bool(s)] for an [Optional[str]]: [None] and the empty string are falsy. *)
Definition truthy (v : option pystr) : bool :=
  match v with
  | Some (_ :: _) => true
  | _ => false
  end.

(** [prefix in s] at the head of [s]. *)
Fixpoint starts_with (w s : pystr) : bool :=
  match w, s with
  | [], _ => true
  | _ :: _, [] => false
  | a :: w', b :: s' => if decide (a = b) then starts_with w' s' else false
  end.

(** The substring test [w in s]. *)
Fixpoint contains (w s : pystr) : bool :=
  starts_with w s ||
  match s with
  | [] => false
  | _ :: s' => contains w s'
  end.

(** [any(word in s for word in words)]. *)
Definition any_in (words : list pystr) (s : pystr) : bool :=
  existsb (fun w => contains w s) words.

(** The part of Python's Unicode database the planner relies on:
    [str.lower], the characters [\d] matches in a [str] pattern, and the
    value [int] gives each of them. *)
Class Unicode := {
  lower : pystr -> pystr;
  is_decimal : N -> bool;
  decimal_value : N -> Z
}.

(** The database restricted to ASCII, enough to run the ASCII and Hangul
    examples below (Hangul has no case and no digits). *)
Definition ascii_lower (c : N) : N :=
  if ((65 <=? c) && (c <=? 90))%N then (c + 32)%N else c.

#[export] Instance ascii_unicode : Unicode := {|
  lower := map ascii_lower;
  is_decimal := fun c => ((48 <=? c) && (c <=? 57))%N;
  decimal_value := fun c => Z.of_N c - 48
|}.

Section Digits.
Context `{Unicode}.

(** [re.findall(r'\d+', s)]: the maximal runs of decimal characters, left
    to right.  [cur] is the run being read, most recent character first. *)
Fixpoint findall_digits_from (cur : pystr) (s : pystr) : list pystr :=
  match s with
  | [] => match cur with [] => [] | _ :: _ => [rev cur] end
  | c :: s' =>
      if is_decimal c then findall_digits_from (c :: cur) s'
      else match cur with
           | [] => findall_digits_from [] s'
           | _ :: _ => rev cur :: findall_digits_from [] s'
           end
  end.

Definition findall_digits (s : pystr) : list pystr := findall_digits_from [] s.

(** [int(num)] for a run of decimal characters (the interpreter's limit
    on the length of a digit string is not modelled). *)
Definition int_of (num : pystr) : Z :=
  fold_left (fun acc c => 10 * acc + decimal_value c) num 0.

End Digits.

End PyText.

Import PyText.

(** ** DemandPlanner: [calculate_search_counts]

    [smart_chatbot.py] and [single_chain_baseline.py] hold the same
    function, line for line. *)

Module DemandPlanner.

Definition mk_counts (h t f e : Z) : gmap string Z :=
  {[ "hotel" := h; "tour" := t; "food" := f; "event" := e ]}%string.

(** The six buckets of the [if days <= 1 ... else] chain. *)
Definition counts_for_days (days : Z) : gmap string Z :=
  if days <=? 1 then mk_counts 3 4 3 3
  else if days <=? 2 then mk_counts 3 6 5 3
  else if days <=? 3 then mk_counts 4 8 7 3
  else if days <=? 4 then mk_counts 4 12 10 3
  else if days <=? 5 then mk_counts 5 15 13 3
  else mk_counts 5 18 16 3.

Section Planner.
Context `{Unicode}.

(** The text-based branch, taken when the text has no digit run. *)
Definition days_by_keyword (duration_lower : pystr) : Z :=
  if any_in [txt "당일"; txt "하루"] duration_lower then 1
  else if any_in [txt "1박"; txt "2일"] duration_lower then 2
  else if any_in [txt "2박"; txt "3일"] duration_lower then 3
  else if any_in [txt "3박"; txt "4일"] duration_lower then 4
  else if any_in [txt "4박"; txt "5일"] duration_lower then 5
  else 3.

(** [days] as the function infers it from a non-empty text. *)
Definition infer_days (duration : pystr) : Z :=
  let duration_lower := lower duration in
  match findall_digits duration_lower with
  | num :: numbers => fold_left Z.max (map int_of numbers) (int_of num)
  | [] => days_by_keyword duration_lower
  end.

Definition calculate_search_counts (duration : option pystr) : gmap string Z :=
  if negb (truthy duration) then mk_counts 3 8 6 3
  else counts_for_days (infer_days (default [] duration)).

End Planner.

End DemandPlanner.

Import DemandPlanner.

(** ** Effects of the retrieval code

    The asynchronous functions of the source touch the outside world in
    two ways: [client.post] on the retrieval service and [asyncio.sleep].
    A run is a function of the events so far; the service is any function
    of those events and the request.  Exceptions are the instances of
    Python's [Exception]; [KeyboardInterrupt] and task cancellation end
    the whole turn and are left out. *)

Module Effects.

Inductive exception :=
  | ReadTimeout
  | ConnectTimeout
  | JSONDecodeError
  | ZeroDivisionError
  | OtherException.

Inductive result (A : Type) :=
  | Returned (a : A)
  | Propagated (e : exception).
Arguments Returned {A} a.
Arguments Propagated {A} e.

(** [httpx.Timeout(connect=, read=, write=, pool=)], in seconds. *)
Record Timeout := { connect : Z; read : Z; write : Z; pool : Z }.

Inductive search_kind := similarity | mmr.

(** The JSON body of a search request.  [diversity_lambda] is given in
    hundredths (0.5 is 50); [filters] is present, and empty, or absent. *)
Record payload := {
  query : pystr;
  top_k : Z;
  search_type : search_kind;
  diversity_lambda : option Z;
  filters : option unit
}.

Record request := { url : string; body : payload; timeout : Timeout }.

Inductive event :=
  | EvPost (req : request)
  | EvSleep (secs : Z).

Definition trace : Type := list event.

(** A retrieved item is a JSON object; only text fields are read. *)
Definition item_name (it : gmap string pystr) : pystr :=
  default [] (it !! "name"%string).

(** [response.status_code] and [response.json()]; [json = None] stands for
    a body that does not parse, on which [response.json()] raises. *)
Record response := {
  status_code : Z;
  json : option (gmap string (list (gmap string pystr)))
}.

Inductive outcome :=
  | Responds (r : response)
  | Raises (e : exception).

Definition service : Type := trace -> request -> outcome.

Definition M (A : Type) : Type := trace -> result A * trace.

#[export] Instance M_ret : MRet M := fun A a tr => (Returned a, tr).

#[export] Instance M_bind : MBind M := fun A B f m tr =>
  match m tr with
  | (Returned a, tr') => f a tr'
  | (Propagated e, tr') => (Propagated e, tr')
  end.

Definition raise {A} (e : exception) : M A := fun tr => (Propagated e, tr).

(** [try: body except Exception as e: handler e]. *)
Definition try_except {A} (body : M A) (handler : exception -> M A) : M A :=
  fun tr =>
    match body tr with
    | (Returned a, tr') => (Returned a, tr')
    | (Propagated e, tr') => handler e tr'
    end.

(** [await asyncio.sleep(secs)]. *)
Definition sleep (secs : Z) : M unit := fun tr => (Returned tt, tr ++ [EvSleep secs]).

(** [await client.post(url, json=payload)] with the client's timeouts. *)
Definition post (srv : service) (req : request) : M response := fun tr =>
  match srv tr req with
  | Responds r => (Returned r, tr ++ [EvPost req])
  | Raises e => (Propagated e, tr ++ [EvPost req])
  end.

(** [response.json()]. *)
Definition json_of (r : response) : M (gmap string (list (gmap string pystr))) :=
  match json r with
  | Some b => mret b
  | None => raise JSONDecodeError
  end.

(** The slice [l[:k]]; a negative [k] counts from the end. *)
Definition slice_to {A} (l : list A) (k : Z) : list A :=
  if 0 <=? k then take (Z.to_nat k) l
  else take (Z.to_nat (Z.of_nat (length l) + k)) l.

(** How a loop body ends: [continue] (or falling through to the next
    round), [break], or [return v]. *)
Inductive ctl (A : Type) :=
  | Continue
  | Break
  | Return (v : A).
Arguments Continue {A}.
Arguments Break {A}.
Arguments Return {A} v.

End Effects.

Import Effects.

(** ** RetrievalClient of [smart_chatbot.py] *)

Module SmartChatbot.

Definition RAG_URL : string := "http://localhost:8002/chat".
Definition max_retries : Z := 3.
Definition base_timeout : Z := 90.

Definition timeout_config (attempt : Z) : Timeout :=
  {| connect := 10; read := base_timeout * (attempt + 1); write := 10; pool := 10 |}.

Definition search_payload (q : pystr) (k : Z) : payload :=
  {| query := q; top_k := k; search_type := mmr;
     diversity_lambda := Some 50; filters := None |}.

Definition search_request (q : pystr) (k : Z) (attempt : Z) : request :=
  {| url := RAG_URL; body := search_payload q k; timeout := timeout_config attempt |}.

Section Client.
Variable srv : service.

(** What every [except] clause does: back off and go round again while
    attempts remain, else give up with the empty list. *)
Definition backoff_or_give_up (attempt : Z) : M (ctl (list (gmap string pystr))) :=
  if attempt <? max_retries - 1
  then sleep (2 ^ attempt) ;; mret Continue
  else mret (Return []).

(** One round of [for attempt in range(max_retries)]: the body of the
    [try] and its three [except] clauses. *)
Definition attempt_body (q : pystr) (k : Z) (attempt : Z)
  : M (ctl (list (gmap string pystr))) :=
  try_except
    (response ← post srv (search_request q k attempt);
     if status_code response =? 200 then
       result ← json_of response;
       let sources := default [] (result !! "sources"%string) in
       mret (Return (slice_to sources k))
     else
       if attempt <? max_retries - 1
       then sleep (2 ^ attempt) ;; mret Continue
       else mret (Return []))
    (fun e =>
       match e with
       | ReadTimeout => backoff_or_give_up attempt
       | ConnectTimeout => backoff_or_give_up attempt
       | _ => backoff_or_give_up attempt
       end).

(** The loop, with [rounds] rounds to go; the [return []] after the loop
    is the case of no round left. *)
Fixpoint attempts_from (q : pystr) (k : Z) (rounds : nat) (attempt : Z)
  : M (list (gmap string pystr)) :=
  match rounds with
  | O => mret []
  | S rounds' =>
      c ← attempt_body q k attempt;
      match c with
      | Return v => mret v
      | Break => mret []
      | Continue => attempts_from q k rounds' (attempt + 1)
      end
  end.

(** [category] only labels the log lines. *)
Definition search_vector_db (q category : pystr) (k : Z) : M (list (gmap string pystr)) :=
  attempts_from q k (Z.to_nat max_retries) 0.

End Client.

End SmartChatbot.

(** ** BatchSplitter of [smart_chatbot.py] *)

Module BatchSplitter.
Import SmartChatbot.

(** [s.replace(old, new)] for a non-empty [old]: occurrences are replaced
    left to right without overlap.  [skip] counts the characters of a
    matched occurrence that are still to be dropped. *)
Fixpoint replace_from (skip : nat) (old new s : pystr) : pystr :=
  match s with
  | [] => []
  | c :: s' =>
      match skip with
      | S n => replace_from n old new s'
      | O =>
          if starts_with old s
          then new ++ replace_from (length old - 1) old new s'
          else c :: replace_from 0 old new s'
      end
  end.

Definition replace (old new s : pystr) : pystr := replace_from 0 old new s.

(** [str(n)] as it appears inside an f-string. *)
Definition str_of_Z (n : Z) : pystr := txt (NilZero.string_of_int (Z.to_int n)).

(** The query of batch [batch_num]. *)
Definition batch_query (q : pystr) (batch_num : Z) : pystr :=
  if batch_num =? 0 then q
  else if batch_num =? 1 then replace (txt "추천") (txt "명소 리스트") q
  else replace (txt "추천") (txt "베스트 " ++ str_of_Z (batch_num + 1)) q.

Section Splitter.
Variable srv : service.

(** One round of [for batch_num in range(batches_needed)]; the second
    component is [all_results] as the round leaves it. *)
Definition batch_body (q category : pystr) (total_count batch_size batches_needed : Z)
    (batch_num : Z) (all_results : list (gmap string pystr))
  : M (ctl unit * list (gmap string pystr)) :=
  try_except
    (let current_batch_size :=
       Z.min batch_size (total_count - Z.of_nat (length all_results)) in
     batch_results ← search_vector_db srv (batch_query q batch_num)
                       (category ++ txt "_batch" ++ str_of_Z (batch_num + 1))
                       current_batch_size;
     let existing_names : gset pystr := list_to_set (item_name <$> all_results) in
     let new_results :=
       filter (fun r => item_name r ∉ existing_names) batch_results in
     let all_results := all_results ++ new_results in
     if Z.of_nat (length all_results) >=? total_count then mret (Break, all_results)
     else if (Z.of_nat (length all_results) >=? total_count / 2) && (batch_num >=? 2)
     then mret (Break, all_results)
     else
       (if batch_num <? batches_needed - 1 then sleep 2 else mret tt) ;;
       mret (Continue, all_results))
    (fun _ => mret (Continue, all_results)).

Fixpoint batches_from (q category : pystr) (total_count batch_size batches_needed : Z)
    (rounds : nat) (batch_num : Z) (all_results : list (gmap string pystr))
  : M (list (gmap string pystr)) :=
  match rounds with
  | O => mret all_results
  | S rounds' =>
      r ← batch_body q category total_count batch_size batches_needed
            batch_num all_results;
      match r.1 with
      | Continue =>
          batches_from q category total_count batch_size batches_needed
            rounds' (batch_num + 1) r.2
      | _ => mret r.2
      end
  end.

(** [//] raises on a zero divisor and floors otherwise, as [Z.div] does. *)
Definition floordiv (a b : Z) : M Z :=
  if b =? 0 then raise ZeroDivisionError else mret (a / b).

Definition search_with_batching (q category : pystr) (total_count batch_size : Z)
  : M (list (gmap string pystr)) :=
  if total_count <=? 20 then search_vector_db srv q category total_count
  else
    batches_needed ← floordiv (total_count + batch_size - 1) batch_size;
    all_results ← batches_from q category total_count batch_size batches_needed
                    (Z.to_nat batches_needed) 0 [];
    mret (slice_to all_results total_count).

End Splitter.

End BatchSplitter.

(** ** [demo_personalized_chatbot.py]: retrieval client and concurrent dispatch *)

Module DemoPersonalized.

Definition RAG_URL : string := "http://localhost:8002/chat".
Definition max_retries : Z := 3.
Definition base_timeout : Z := 90.

Definition timeout_config (attempt : Z) : Timeout :=
  {| connect := 10; read := base_timeout * (attempt + 1); write := 10; pool := 10 |}.

Definition search_request (q : pystr) (k : Z) (attempt : Z) : request :=
  {| url := RAG_URL;
     body := {| query := q; top_k := k; search_type := mmr;
                diversity_lambda := Some 50; filters := None |};
     timeout := timeout_config attempt |}.

Section Client.
Variable srv : service.

(** One round of the retry loop; this variant has a single
    [except Exception] clause. *)
Definition attempt_body (q : pystr) (k : Z) (attempt : Z)
  : M (ctl (list (gmap string pystr))) :=
  try_except
    (response ← post srv (search_request q k attempt);
     if status_code response =? 200 then
       result ← json_of response;
       let sources := default [] (result !! "sources"%string) in
       mret (Return (slice_to sources k))
     else
       if attempt <? max_retries - 1
       then sleep (2 ^ attempt) ;; mret Continue
       else mret (Return []))
    (fun _ =>
       if attempt <? max_retries - 1
       then sleep (2 ^ attempt) ;; mret Continue
       else mret (Return [])).

Fixpoint attempts_from (q : pystr) (k : Z) (rounds : nat) (attempt : Z)
  : M (list (gmap string pystr)) :=
  match rounds with
  | O => mret []
  | S rounds' =>
      c ← attempt_body q k attempt;
      match c with
      | Return v => mret v
      | Break => mret []
      | Continue => attempts_from q k rounds' (attempt + 1)
      end
  end.

Definition search_vector_db (q category : pystr) (k : Z) : M (list (gmap string pystr)) :=
  attempts_from q k (Z.to_nat max_retries) 0.

(** The shape of [search_hotels], [search_tours], [search_foods] and
    [search_events]: the keyword gate, then one retrieval with the query
    the coroutine has built (the text of the query is not modelled). *)
Definition category_task (should_search : bool) (q category : pystr) (k : Z)
  : M (list (gmap string pystr)) :=
  if should_search then search_vector_db q category k else mret [].

End Client.

(** What [asyncio.gather(..., return_exceptions=True)] hands back for one
    child: its return value, or the exception it raised, as a value. *)
Inductive gathered :=
  | VList (l : list (gmap string pystr))
  | VException (e : exception).

Definition gather_return_exceptions
    (children : list (result (list (gmap string pystr)))) : list gathered :=
  (fun r => match r with
            | Returned l => VList l
            | Propagated e => VException e
            end) <$> children.

(** [if isinstance(x, Exception): x = []]. *)
Definition empty_if_exception (x : gathered) : gathered :=
  match x with
  | VException _ => VList []
  | VList l => VList l
  end.

Definition search_results (h t f e : list (gmap string pystr))
  : gmap string (list (gmap string pystr)) :=
  {[ "hotel_results" := h; "travel_results" := t;
     "food_results" := f; "event_results" := e ]}%string.

(** The fan-in of [personalized_parallel_search_all], from the outcomes of
    its four coroutines.  The [len] calls of the summary line raise on a
    value that is not a list, and so does the unpacking of a result that
    has not four components; the outer [except] then returns four empty
    lists. *)
Definition personalized_parallel_search_all
    (hotel tour food event : result (list (gmap string pystr)))
  : gmap string (list (gmap string pystr)) :=
  match gather_return_exceptions [hotel; tour; food; event] with
  | [hotel_results; tour_results; food_results; event_results] =>
      let hotel_results := empty_if_exception hotel_results in
      let tour_results := empty_if_exception tour_results in
      let food_results := empty_if_exception food_results in
      let event_results := empty_if_exception event_results in
      match hotel_results, tour_results, food_results, event_results with
      | VList h, VList t, VList f, VList e => search_results h t f e
      | _, _, _, _ => search_results [] [] [] []
      end
  | _ => search_results [] [] [] []
  end.

End DemoPersonalized.

(** ** Retrieval of the single-chain baseline *)

Module SingleChainBaseline.

Definition RAG_SEARCH_URL : string := "http://localhost:8002/search".

(** The module-level [global_http_client]: [None] until the first call of
    [get_global_client] builds the client with its fixed timeouts. *)
Definition get_global_client (global_http_client : option Timeout)
  : Timeout * option Timeout :=
  match global_http_client with
  | None =>
      let timeout_config := {| connect := 10; read := 120; write := 10; pool := 10 |} in
      (timeout_config, Some timeout_config)
  | Some client => (client, Some client)
  end.

Definition search_request (client : Timeout) (q : pystr) (k : Z) : request :=
  {| url := RAG_SEARCH_URL;
     body := {| query := q; top_k := k; search_type := similarity;
                diversity_lambda := None; filters := Some tt |};
     timeout := client |}.

Section Client.
Variable srv : service.

(** Returns the result together with [global_http_client] as the call
    leaves it. *)
Definition search_vector_db (global_http_client : option Timeout)
    (q category : pystr) (k : Z)
  : M (list (gmap string pystr) * option Timeout) :=
  let got := get_global_client global_http_client in
  try_except
    (response ← post srv (search_request got.1 q k);
     if status_code response =? 200 then
       result ← json_of response;
       let sources := default [] (result !! "results"%string) in
       mret (slice_to sources k, got.2)
     else mret ([], got.2))
    (fun _ => mret ([], got.2)).

End Client.

End SingleChainBaseline.

(** ** ProfileStore: [UserProfile], [update_profile], [is_profile_sufficient]

    [update_personalized_profile] of the demo and [update_profile] of the
    baseline have the body of [update_profile]; the baseline's
    [is_profile_sufficient] has the body of the one below. *)

Module ProfileStore.

(** The dataclass; [__post_init__] turns a missing [interests] into the
    empty list, so the field is always a list. *)
Record UserProfile := {
  travel_dates : option pystr;
  duration : option pystr;
  group_type : option pystr;
  interests : list pystr;
  budget : option pystr;
  travel_region : option pystr
}.

(** [UserProfile()]. *)
Definition empty_profile : UserProfile :=
  {| travel_dates := None; duration := None; group_type := None;
     interests := []; budget := None; travel_region := None |}.

(** The extraction result: per key, the text or the array under it;
    [None] for a key that is missing or [null] ([dict.get] gives [None]
    for both). *)
Record ProfileInfo := {
  info_travel_dates : option pystr;
  info_duration : option pystr;
  info_group_type : option pystr;
  info_interests : option (list pystr);
  info_budget : option pystr;
  info_travel_region : option pystr
}.

Definition set_travel_dates (v : option pystr) (p : UserProfile) : UserProfile :=
  {| travel_dates := v; duration := duration p; group_type := group_type p;
     interests := interests p; budget := budget p; travel_region := travel_region p |}.

Definition set_duration (v : option pystr) (p : UserProfile) : UserProfile :=
  {| travel_dates := travel_dates p; duration := v; group_type := group_type p;
     interests := interests p; budget := budget p; travel_region := travel_region p |}.

Definition set_group_type (v : option pystr) (p : UserProfile) : UserProfile :=
  {| travel_dates := travel_dates p; duration := duration p; group_type := v;
     interests := interests p; budget := budget p; travel_region := travel_region p |}.

Definition set_interests (v : list pystr) (p : UserProfile) : UserProfile :=
  {| travel_dates := travel_dates p; duration := duration p; group_type := group_type p;
     interests := v; budget := budget p; travel_region := travel_region p |}.

Definition set_budget (v : option pystr) (p : UserProfile) : UserProfile :=
  {| travel_dates := travel_dates p; duration := duration p; group_type := group_type p;
     interests := interests p; budget := v; travel_region := travel_region p |}.

Definition set_travel_region (v : option pystr) (p : UserProfile) : UserProfile :=
  {| travel_dates := travel_dates p; duration := duration p; group_type := group_type p;
     interests := interests p; budget := budget p; travel_region := v |}.

(** The loop [for interest in new_interests: if interest not in cur:
    cur.append(interest)]. *)
Fixpoint append_new (cur new_interests : list pystr) : list pystr :=
  match new_interests with
  | [] => cur
  | interest :: rest =>
      append_new (if decide (interest ∈ cur) then cur else cur ++ [interest]) rest
  end.

(** [bool(v)] for the array under ["interests"]. *)
Definition truthy_list (v : option (list pystr)) : bool :=
  match v with
  | Some (_ :: _) => true
  | _ => false
  end.

Definition update_profile (current_profile : UserProfile) (profile_info : ProfileInfo)
  : UserProfile :=
  let p := current_profile in
  let p := if truthy (info_travel_dates profile_info)
           then set_travel_dates (info_travel_dates profile_info) p else p in
  let p := if truthy (info_duration profile_info)
           then set_duration (info_duration profile_info) p else p in
  let p := if truthy (info_group_type profile_info)
           then set_group_type (info_group_type profile_info) p else p in
  let p := if truthy_list (info_interests profile_info)
           then set_interests
                  (append_new (interests p) (default [] (info_interests profile_info))) p
           else p in
  let p := if truthy (info_budget profile_info)
           then set_budget (info_budget profile_info) p else p in
  let p := if truthy (info_travel_region profile_info)
           then set_travel_region (info_travel_region profile_info) p else p in
  p.

(** [sum([bool(...), ...]) >= 3]; the baseline's method has the same body. *)
Definition required_info_count (profile : UserProfile) : Z :=
  Z.b2z (truthy (travel_dates profile))
  + Z.b2z (truthy (duration profile))
  + Z.b2z (truthy (group_type profile))
  + Z.b2z (bool_decide (interests profile ≠ []))
  + Z.b2z (truthy (budget profile))
  + Z.b2z (truthy (travel_region profile)).

Definition is_profile_sufficient (profile : UserProfile) : bool :=
  required_info_count profile >=? 3.

End ProfileStore.

Import ProfileStore.

(** ** ConversationOrchestrator: the profile node and its routing *)

Module Orchestrator.

(** The graph state.  History entries are (role, message); their
    timestamps are not modelled. *)
Record GraphState := {
  user_message : pystr;
  conversation_history : list (string * pystr);
  user_profile : UserProfile;
  hotel_results : list (gmap string pystr);
  travel_results : list (gmap string pystr);
  food_results : list (gmap string pystr);
  event_results : list (gmap string pystr);
  final_response : pystr;
  profile_ready : bool
}.

Section Node.
(** The two language-model calls of the node, as opaque collaborators. *)
Variable extract_profile_info : pystr -> UserProfile -> ProfileInfo.
Variable generate_info_collection_response :
  UserProfile -> pystr -> list (string * pystr) -> pystr.

Definition profile_collector_node (state : GraphState) : GraphState :=
  let user_message := user_message state in
  let conversation_history :=
    conversation_history state ++ [("user"%string, user_message)] in
  let current_profile := user_profile state in
  let profile_info := extract_profile_info user_message current_profile in
  let updated_profile := update_profile current_profile profile_info in
  let profile_ready := is_profile_sufficient updated_profile in
  if negb profile_ready then
    let response :=
      generate_info_collection_response updated_profile user_message
        conversation_history in
    {| user_message := user_message;
       conversation_history := conversation_history ++ [("assistant"%string, response)];
       user_profile := updated_profile;
       hotel_results := hotel_results state;
       travel_results := travel_results state;
       food_results := food_results state;
       event_results := event_results state;
       final_response := response;
       profile_ready := false |}
  else
    {| user_message := user_message;
       conversation_history := conversation_history;
       user_profile := updated_profile;
       hotel_results := hotel_results state;
       travel_results := travel_results state;
       food_results := food_results state;
       event_results := event_results state;
       final_response := final_response state;
       profile_ready := true |}.

End Node.

(** The conditional edge out of the profile node: on to the search, or
    the end of the turn. *)
Definition should_continue_to_agents (state : GraphState) : string :=
  if profile_ready state then "parallel_search" else "end".

End Orchestrator.

Import Orchestrator.


(** ** The graph of [smart_chatbot.py]: search node, response node, turn

    The language-model calls are opaque collaborators: each is a function
    of what the code passes to it, giving the stripped text of the answer
    or the exception the call raised. *)

Module SmartGraph.
Import SmartChatbot BatchSplitter.

Definition set_results (state : GraphState)
    (h t f e : list (gmap string pystr)) : GraphState :=
  {| user_message := user_message state;
     conversation_history := conversation_history state;
     user_profile := user_profile state;
     hotel_results := h; travel_results := t;
     food_results := f; event_results := e;
     final_response := final_response state;
     profile_ready := profile_ready state |}.

Definition set_response (state : GraphState) (response : pystr)
    (history : list (string * pystr)) : GraphState :=
  {| user_message := user_message state;
     conversation_history := history;
     user_profile := user_profile state;
     hotel_results := hotel_results state;
     travel_results := travel_results state;
     food_results := food_results state;
     event_results := event_results state;
     final_response := response;
     profile_ready := profile_ready state |}.

Definition set_user_message (state : GraphState) (message : pystr) : GraphState :=
  {| user_message := message;
     conversation_history := conversation_history state;
     user_profile := user_profile state;
     hotel_results := hotel_results state;
     travel_results := travel_results state;
     food_results := food_results state;
     event_results := event_results state;
     final_response := final_response state;
     profile_ready := profile_ready state |}.

(** The state [chat] builds when the checkpoint holds none. *)
Definition fresh_state (message : pystr) : GraphState :=
  {| user_message := message; conversation_history := [];
     user_profile := empty_profile;
     hotel_results := []; travel_results := [];
     food_results := []; event_results := [];
     final_response := []; profile_ready := false |}.

(** Lifts the outcome of a collaborator into the effect monad. *)
Definition await {A} (r : result A) : M A := fun tr => (r, tr).

Section Graph.
Context `{Unicode}.
Variable srv : service.
Variable extract_profile_info : pystr -> UserProfile -> ProfileInfo.
Variable generate_info_collection_response :
  UserProfile -> pystr -> list (string * pystr) -> pystr.
(** [generate_hotel_query] and its three siblings, by category. *)
Variable generate_query : string -> UserProfile -> result pystr.
(** [response_llm.ainvoke(prompt)] under [asyncio.wait_for]; the prompt is
    built from the state. *)
Variable response_llm : GraphState -> result pystr.

(** The body of the two [for category, query in ...] loops: one
    category's search, its result stored under the category, then the
    pause of one second. *)
Definition search_category (search_counts : gmap string Z)
    (results : gmap string (list (gmap string pystr)))
    (category : string) (q : pystr)
  : M (gmap string (list (gmap string pystr))) :=
  let count := default 5 (search_counts !! category) in
  results ← try_except
    (result ← search_with_batching srv q (txt category) count 3;
     mret (<[category := result]> results))
    (fun _ => mret (<[category := []]> results));
  sleep 1 ;;
  mret results.

Fixpoint search_categories (search_counts : gmap string Z)
    (results : gmap string (list (gmap string pystr)))
    (queries : list (string * pystr))
  : M (gmap string (list (gmap string pystr))) :=
  match queries with
  | [] => mret results
  | (category, q) :: rest =>
      results ← search_category search_counts results category q;
      search_categories search_counts results rest
  end.

Definition parallel_search_all (state : GraphState) : M GraphState :=
  let user_profile := user_profile state in
  let search_counts := calculate_search_counts (duration user_profile) in
  hotel_query ← await (generate_query "hotel" user_profile);
  tour_query ← await (generate_query "tour" user_profile);
  food_query ← await (generate_query "food" user_profile);
  event_query ← await (generate_query "event" user_profile);
  let categories :=
    [("hotel", hotel_query); ("tour", tour_query);
     ("food", food_query); ("event", event_query)]%string in
  results ← search_categories search_counts ∅ (take 2 categories);
  sleep 5 ;;
  results ← search_categories search_counts results (drop 2 categories);
  mret (set_results state
          (default [] (results !! "hotel"%string))
          (default [] (results !! "tour"%string))
          (default [] (results !! "food"%string))
          (default [] (results !! "event"%string))).

Definition response_generator_node (state : GraphState) : M GraphState :=
  let conversation_history := conversation_history state in
  try_except
    (final_response ← await (response_llm state);
     mret (set_response state final_response
             (conversation_history ++ [("assistant"%string, final_response)])))
    (fun _ =>
       mret (set_response state
               (txt "죄송합니다. 일정 생성 중 오류가 발생했습니다.")
               conversation_history)).

(** One run of the compiled graph: the profile node, then, when the
    conditional edge says so, the search node and the response node. *)
Definition invoke_graph (state : GraphState) : M GraphState :=
  let state :=
    profile_collector_node extract_profile_info generate_info_collection_response
      state in
  if decide (should_continue_to_agents state = "parallel_search"%string) then
    state ← parallel_search_all state;
    response_generator_node state
  else mret state.

(** [SmartJejuChatbot.chat] on the state the checkpoint holds ([None]
    when it holds none): the response text and the profile it returns. *)
Definition chat (stored : option GraphState) (message : pystr)
  : M (pystr * UserProfile) :=
  try_except
    (let state :=
       match stored with
       | Some values => set_user_message values message
       | None => fresh_state message
       end in
     result ← invoke_graph state;
     mret (final_response result, user_profile result))
    (fun _ =>
       mret (txt "죄송합니다. 일시적인 오류가 발생했습니다. 다시 시도해주세요.",
             empty_profile)).

End Graph.

End SmartGraph.

(** ** Sequential dispatch of the single-chain baseline

    [direct_search_all_categories]: per category, a query from the
    language model, one retrieval, a pause of one second.  The log lines
    and the time measurements are left out. *)

Module BaselineDispatch.
Import SingleChainBaseline.

(** What the method returns, without the timings and the log. *)
Record search_response := {
  results : gmap string (list (gmap string pystr));
  search_queries : gmap string pystr;
  llm_calls_count : Z
}.

(** [search_counts[category]] raises [KeyError] on a missing key. *)
Definition subscript (search_counts : gmap string Z) (category : string) : M Z :=
  match search_counts !! category with
  | Some count => mret count
  | None => raise OtherException
  end.

Section Dispatch.
Context `{Unicode}.
Variable srv : service.
(** [self.llm.ainvoke(prompt)] for the prompt of a category, which is
    built from the category and the summary of the profile. *)
Variable llm : string -> UserProfile -> result pystr.

(** The [except] clause of the loop body, on the dictionaries as they are
    when the exception is raised. *)
Definition category_failed (acc : search_response) (category : string)
  : search_response :=
  {| results := <[category := []]> (results acc);
     search_queries := <[category := []]> (search_queries acc);
     llm_calls_count := llm_calls_count acc |}.

(** One round of [for category in categories].  The counter and the
    query are updated before the retrieval, so an exception raised later
    in the round finds them updated. *)
Definition category_round (search_counts : gmap string Z) (profile : UserProfile)
    (acc : search_response * option Timeout) (category : string)
  : M (search_response * option Timeout) :=
  try_except
    (search_query ← SmartGraph.await (llm category profile);
     mret (Some search_query))
    (fun _ => mret None)
  ≫= fun generated =>
  match generated with
  | None => mret (category_failed acc.1 category, acc.2)
  | Some search_query =>
      let counted :=
        {| results := results acc.1;
           search_queries := <[category := search_query]> (search_queries acc.1);
           llm_calls_count := llm_calls_count acc.1 + 1 |} in
      try_except
        (count ← subscript search_counts category;
         found ← search_vector_db srv acc.2 search_query (txt category) count;
         sleep 1 ;;
         mret ({| results := <[category := found.1]> (results counted);
                  search_queries := search_queries counted;
                  llm_calls_count := llm_calls_count counted |},
               found.2))
        (fun _ => mret (category_failed counted category,
                        (get_global_client acc.2).2))
  end.

Fixpoint category_rounds (search_counts : gmap string Z) (profile : UserProfile)
    (acc : search_response * option Timeout) (todo : list string)
  : M (search_response * option Timeout) :=
  match todo with
  | [] => mret acc
  | category :: rest =>
      acc ← category_round search_counts profile acc category;
      category_rounds search_counts profile acc rest
  end.

(** The counter starts at one, for the extraction call of the turn. *)
Definition direct_search_all_categories (global_http_client : option Timeout)
    (profile : UserProfile) : M (search_response * option Timeout) :=
  let categories := ["hotel"; "tour"; "food"; "event"]%string in
  let search_counts := calculate_search_counts (duration profile) in
  category_rounds search_counts profile
    ({| results := ∅; search_queries := ∅; llm_calls_count := 1 |},
     global_http_client)
    categories.

End Dispatch.

End BaselineDispatch.

(** ** The turn of the single-chain baseline: [SingleChainJejuChatbot.chat]

    The chains are opaque collaborators, functions of what their prompts
    are built from.  The processing times are left out. *)

Module BaselineChat.
Import BaselineDispatch.

(** The fields of the chatbot object that a turn reads and writes,
    together with the module's shared client. *)
Record Chatbot := {
  conversation_history : list (string * pystr);
  user_profile : UserProfile;
  global_http_client : option Timeout
}.

(** The dictionary [chat] returns: the response, the profile, and, after
    a search, the results and the number of language-model calls. *)
Record reply := {
  response : pystr;
  reply_profile : UserProfile;
  search_results : option (gmap string (list (gmap string pystr)));
  reply_llm_calls : option Z
}.

Definition with_history (self : Chatbot) (entry : string * pystr) : Chatbot :=
  {| conversation_history := conversation_history self ++ [entry];
     user_profile := user_profile self;
     global_http_client := global_http_client self |}.

Definition with_profile (self : Chatbot) (p : UserProfile) : Chatbot :=
  {| conversation_history := conversation_history self;
     user_profile := p;
     global_http_client := global_http_client self |}.

Definition with_client (self : Chatbot) (g : option Timeout) : Chatbot :=
  {| conversation_history := conversation_history self;
     user_profile := user_profile self;
     global_http_client := g |}.

(** The dictionary of the [except] clause, for the object as it is when
    the exception is caught. *)
Definition error_reply (self : Chatbot) : reply :=
  {| response := txt "죄송합니다. 일시적인 오류가 발생했습니다. 다시 시도해주세요.";
     reply_profile := user_profile self;
     search_results := None;
     reply_llm_calls := Some 0 |}.

Section Chat.
Context `{Unicode}.
Variable srv : service.
(** [profile_chain.arun], with the parser's [{}] for an answer that does
    not parse. *)
Variable profile_chain : pystr -> UserProfile -> result ProfileInfo.
Variable info_collection_chain :
  UserProfile -> pystr -> list (string * pystr) -> result pystr.
Variable llm : string -> UserProfile -> result pystr.
Variable itinerary_chain :
  UserProfile -> list (string * pystr) -> gmap string (list (gmap string pystr))
  -> result pystr.

Definition chat (self : Chatbot) (user_message : pystr) : M (reply * Chatbot) :=
  let self := with_history self ("user"%string, user_message) in
  match profile_chain user_message (user_profile self) with
  | Propagated _ => mret (error_reply self, self)
  | Returned profile_info =>
      let self := with_profile self (update_profile (user_profile self) profile_info) in
      if negb (is_profile_sufficient (user_profile self)) then
        match info_collection_chain (user_profile self) user_message
                (conversation_history self) with
        | Propagated _ => mret (error_reply self, self)
        | Returned response =>
            let self := with_history self ("assistant"%string, response) in
            mret ({| response := response; reply_profile := user_profile self;
                     search_results := None; reply_llm_calls := None |},
                  self)
        end
      else
        try_except
          (found ← direct_search_all_categories srv llm (global_http_client self)
                     (user_profile self);
           let self := with_client self found.2 in
           match itinerary_chain (user_profile self) (conversation_history self)
                   (results found.1) with
           | Propagated _ => mret (error_reply self, self)
           | Returned final_response =>
               let self := with_history self ("assistant"%string, final_response) in
               mret ({| response := final_response;
                        reply_profile := user_profile self;
                        search_results := Some (results found.1);
                        reply_llm_calls := Some (llm_calls_count found.1 + 1) |},
                     self)
           end)
          (fun _ => mret (error_reply self, self))
  end.

End Chat.

End BaselineChat.

(** ** The personalized profile and its node ([demo_personalized_chatbot.py]) *)

Module DemoProfile.

Record PersonalizedUserProfile := {
  name : option pystr;
  personality : option pystr;
  travel_style : option pystr;
  travel_dates : option pystr;
  duration : option pystr;
  group_type : option pystr;
  interests : list pystr;
  budget : option pystr;
  travel_region : option pystr
}.

(** [PersonalizedUserProfile()]. *)
Definition empty_profile : PersonalizedUserProfile :=
  {| name := None; personality := None; travel_style := None;
     travel_dates := None; duration := None; group_type := None;
     interests := []; budget := None; travel_region := None |}.

Definition set_identity (n p s : option pystr) (u : PersonalizedUserProfile)
  : PersonalizedUserProfile :=
  {| name := n; personality := p; travel_style := s;
     travel_dates := travel_dates u; duration := duration u;
     group_type := group_type u; interests := interests u;
     budget := budget u; travel_region := travel_region u |}.

Definition set_travel_dates (v : option pystr) (u : PersonalizedUserProfile)
  : PersonalizedUserProfile :=
  {| name := name u; personality := personality u; travel_style := travel_style u;
     travel_dates := v; duration := duration u;
     group_type := group_type u; interests := interests u;
     budget := budget u; travel_region := travel_region u |}.

Definition set_duration (v : option pystr) (u : PersonalizedUserProfile)
  : PersonalizedUserProfile :=
  {| name := name u; personality := personality u; travel_style := travel_style u;
     travel_dates := travel_dates u; duration := v;
     group_type := group_type u; interests := interests u;
     budget := budget u; travel_region := travel_region u |}.

Definition set_group_type (v : option pystr) (u : PersonalizedUserProfile)
  : PersonalizedUserProfile :=
  {| name := name u; personality := personality u; travel_style := travel_style u;
     travel_dates := travel_dates u; duration := duration u;
     group_type := v; interests := interests u;
     budget := budget u; travel_region := travel_region u |}.

Definition set_interests (v : list pystr) (u : PersonalizedUserProfile)
  : PersonalizedUserProfile :=
  {| name := name u; personality := personality u; travel_style := travel_style u;
     travel_dates := travel_dates u; duration := duration u;
     group_type := group_type u; interests := v;
     budget := budget u; travel_region := travel_region u |}.

Definition set_budget (v : option pystr) (u : PersonalizedUserProfile)
  : PersonalizedUserProfile :=
  {| name := name u; personality := personality u; travel_style := travel_style u;
     travel_dates := travel_dates u; duration := duration u;
     group_type := group_type u; interests := interests u;
     budget := v; travel_region := travel_region u |}.

Definition set_travel_region (v : option pystr) (u : PersonalizedUserProfile)
  : PersonalizedUserProfile :=
  {| name := name u; personality := personality u; travel_style := travel_style u;
     travel_dates := travel_dates u; duration := duration u;
     group_type := group_type u; interests := interests u;
     budget := budget u; travel_region := v |}.

Definition update_personalized_profile (current_profile : PersonalizedUserProfile)
    (profile_info : ProfileInfo) : PersonalizedUserProfile :=
  let p := current_profile in
  let p := if truthy (info_travel_dates profile_info)
           then set_travel_dates (info_travel_dates profile_info) p else p in
  let p := if truthy (info_duration profile_info)
           then set_duration (info_duration profile_info) p else p in
  let p := if truthy (info_group_type profile_info)
           then set_group_type (info_group_type profile_info) p else p in
  let p := if truthy_list (info_interests profile_info)
           then set_interests
                  (append_new (interests p) (default [] (info_interests profile_info))) p
           else p in
  let p := if truthy (info_budget profile_info)
           then set_budget (info_budget profile_info) p else p in
  let p := if truthy (info_travel_region profile_info)
           then set_travel_region (info_travel_region profile_info) p else p in
  p.

Definition is_personalized_profile_sufficient (profile : PersonalizedUserProfile) : bool :=
  if truthy (name profile) && truthy (personality profile) then true
  else truthy (travel_dates profile) || truthy (duration profile).

(** One user of [demo_user_data.json], as far as the node reads it:
    [user_info.get('personality')] and [user_info.get('travel_style')]. *)
Record user_info := {
  info_personality : option pystr;
  info_travel_style : option pystr
}.

(** [USER_DATA.get(name, {})] on the dictionary given by its items, in
    insertion order. *)
Fixpoint get_user_info_by_name (user_data : list (pystr * user_info)) (n : pystr)
  : user_info :=
  match user_data with
  | [] => {| info_personality := None; info_travel_style := None |}
  | (k, info) :: rest =>
      if decide (k = n) then info else get_user_info_by_name rest n
  end.

(** The loop [for name in USER_DATA.keys(): if name in user_message: ...
    break] over the keys still to visit. *)
Fixpoint find_name (user_data : list (pystr * user_info)) (keys : list pystr)
    (user_message : pystr) (current_profile : PersonalizedUserProfile)
  : PersonalizedUserProfile :=
  match keys with
  | [] => current_profile
  | n :: rest =>
      if contains n user_message then
        let user_info := get_user_info_by_name user_data n in
        set_identity (Some n) (info_personality user_info)
          (info_travel_style user_info) current_profile
      else find_name user_data rest user_message current_profile
  end.

(** The name extraction of the node. *)
Definition identify (user_data : list (pystr * user_info)) (user_message : pystr)
    (current_profile : PersonalizedUserProfile) : PersonalizedUserProfile :=
  if negb (truthy (name current_profile))
  then find_name user_data (user_data.*1) user_message current_profile
  else current_profile.

Record PersonalizedGraphState := {
  user_message : pystr;
  conversation_history : list (string * pystr);
  user_profile : PersonalizedUserProfile;
  hotel_results : list (gmap string pystr);
  travel_results : list (gmap string pystr);
  food_results : list (gmap string pystr);
  event_results : list (gmap string pystr);
  final_response : pystr;
  profile_ready : bool
}.

Section Node.
Variable USER_DATA : list (pystr * user_info).
Variable extract_personalized_profile_info :
  pystr -> PersonalizedUserProfile -> ProfileInfo.
Variable generate_personalized_info_collection_response :
  PersonalizedUserProfile -> pystr -> list (string * pystr) -> pystr.

Definition personalized_profile_collector_node (state : PersonalizedGraphState)
  : PersonalizedGraphState :=
  let user_message := user_message state in
  let conversation_history :=
    conversation_history state ++ [("user"%string, user_message)] in
  let current_profile := identify USER_DATA user_message (user_profile state) in
  let profile_info := extract_personalized_profile_info user_message current_profile in
  let updated_profile := update_personalized_profile current_profile profile_info in
  let profile_ready := is_personalized_profile_sufficient updated_profile in
  if negb profile_ready then
    let response :=
      generate_personalized_info_collection_response updated_profile user_message
        conversation_history in
    {| user_message := user_message;
       conversation_history := conversation_history ++ [("assistant"%string, response)];
       user_profile := updated_profile;
       hotel_results := hotel_results state;
       travel_results := travel_results state;
       food_results := food_results state;
       event_results := event_results state;
       final_response := response;
       profile_ready := false |}
  else
    {| user_message := user_message;
       conversation_history := conversation_history;
       user_profile := updated_profile;
       hotel_results := hotel_results state;
       travel_results := travel_results state;
       food_results := food_results state;
       event_results := event_results state;
       final_response := final_response state;
       profile_ready := true |}.

End Node.

(** The conditional edge out of the profile node. *)
Definition should_continue_to_agents (state : PersonalizedGraphState) : string :=
  if profile_ready state then "parallel_search" else "end".

(** The day count and the count table at the head of
    [personalized_parallel_search_all]; the text is searched as it is,
    without lowering. *)
Definition duration_days (duration : option pystr) : Z :=
  if truthy duration then
    let d := default [] duration in
    if contains (txt "1박") d || contains (txt "1일") d then 1
    else if contains (txt "2박") d || contains (txt "2일") d then 2
    else if contains (txt "3박") d || contains (txt "3일") d then 3
    else if contains (txt "4박") d || contains (txt "4일") d then 4
    else if contains (txt "5박") d || contains (txt "5일") d then 5
    else 3
  else 3.

Definition count_table : gmap Z (gmap string Z) :=
  {[ 1 := mk_counts 3 4 3 2;
     2 := mk_counts 3 6 5 3;
     3 := mk_counts 4 8 6 3;
     4 := mk_counts 4 12 8 4;
     5 := mk_counts 5 15 10 5 ]}.

Definition search_counts (duration : option pystr) : gmap string Z :=
  default (mk_counts 5 18 12 6) (count_table !! duration_days duration).

End DemoProfile.

(** ** [UserProfile.get_summary] *)

Module ProfileSummary.

(** [sep.join(parts)]. *)
Fixpoint join (sep : pystr) (parts : list pystr) : pystr :=
  match parts with
  | [] => []
  | [part] => part
  | part :: rest => part ++ sep ++ join sep rest
  end.

Definition get_summary (p : UserProfile) : pystr :=
  let summary_parts : list pystr := [] in
  let summary_parts :=
    if truthy (travel_dates p)
    then summary_parts ++ [txt "날짜: " ++ default [] (travel_dates p)]
    else summary_parts in
  let summary_parts :=
    if truthy (duration p)
    then summary_parts ++ [txt "기간: " ++ default [] (duration p)]
    else summary_parts in
  let summary_parts :=
    if truthy (group_type p)
    then summary_parts ++ [txt "여행 유형: " ++ default [] (group_type p)]
    else summary_parts in
  let summary_parts :=
    match interests p with
    | _ :: _ => summary_parts ++ [txt "관심사: " ++ join (txt ", ") (interests p)]
    | [] => summary_parts
    end in
  let summary_parts :=
    if truthy (budget p)
    then summary_parts ++ [txt "예산: " ++ default [] (budget p)]
    else summary_parts in
  let summary_parts :=
    if truthy (travel_region p)
    then summary_parts ++ [txt "여행지역: " ++ default [] (travel_region p)]
    else summary_parts in
  match summary_parts with
  | [] => txt "정보 없음"
  | _ :: _ => join (txt " | ") summary_parts
  end.

End ProfileSummary.

(** ** [SingleChainJejuChatbot.extract_profile_simple]

    Keyword matching on the lowered message.  A key the method does not
    set is a missing key, [None] here. *)

Module BaselineExtract.

Section Extract.
Context `{Unicode}.

Definition extract_duration (message_lower : pystr) : option pystr :=
  if contains (txt "1박") message_lower || contains (txt "2일") message_lower
  then Some (txt "1박2일")
  else if contains (txt "2박") message_lower || contains (txt "3일") message_lower
  then Some (txt "2박3일")
  else if contains (txt "3박") message_lower || contains (txt "4일") message_lower
  then Some (txt "3박4일")
  else None.

Definition extract_group_type (message_lower : pystr) : option pystr :=
  if any_in [txt "커플"; txt "연인"; txt "남친"; txt "여친"; txt "애인"] message_lower
  then Some (txt "커플")
  else if any_in [txt "가족"; txt "아이"; txt "부모"; txt "엄마"; txt "아빠"] message_lower
  then Some (txt "가족")
  else if any_in [txt "친구"; txt "동료"; txt "같이"] message_lower
  then Some (txt "친구")
  else if any_in [txt "혼자"; txt "혼행"; txt "솔로"] message_lower
  then Some (txt "혼자")
  else None.

Definition extract_interests (message_lower : pystr) : list pystr :=
  let interests : list pystr := [] in
  let interests :=
    if any_in [txt "맛집"; txt "음식"; txt "먹거리"] message_lower
    then interests ++ [txt "맛집"] else interests in
  let interests :=
    if any_in [txt "힐링"; txt "휴식"; txt "쉬고"] message_lower
    then interests ++ [txt "힐링"] else interests in
  let interests :=
    if any_in [txt "액티비티"; txt "체험"; txt "활동"] message_lower
    then interests ++ [txt "액티비티"] else interests in
  let interests :=
    if any_in [txt "사진"; txt "인스타"; txt "감성"] message_lower
    then interests ++ [txt "사진촬영"] else interests in
  interests.

Definition extract_travel_region (message_lower : pystr) : option pystr :=
  if any_in [txt "제주시"; txt "제주 시내"; txt "공항 근처"] message_lower
  then Some (txt "제주시")
  else if any_in [txt "서귀포"; txt "중문"; txt "성산"] message_lower
  then Some (txt "서귀포")
  else if any_in [txt "서쪽"; txt "한림"; txt "협재"] message_lower
  then Some (txt "제주 서쪽")
  else if any_in [txt "동쪽"; txt "성산일출봉"] message_lower
  then Some (txt "제주 동쪽")
  else None.

Definition extract_profile_simple (message : pystr) : ProfileInfo :=
  let message_lower := lower message in
  let interests := extract_interests message_lower in
  {| info_travel_dates := None;
     info_duration := extract_duration message_lower;
     info_group_type := extract_group_type message_lower;
     info_interests := match interests with [] => None | _ :: _ => Some interests end;
     info_budget := None;
     info_travel_region := extract_travel_region message_lower |}.

End Extract.

End BaselineExtract.
(** * Vocabulary of the properties *)

(** The four retrieval categories, in the order the baseline visits them. *)
Definition categories : list string := ["hotel"; "tour"; "food"; "event"]%string.

(** Every keyword the text-based branch looks for. *)
Definition recognized_keywords : list pystr :=
  [txt "당일"; txt "하루"; txt "1박"; txt "2일"; txt "2박"; txt "3일";
   txt "3박"; txt "4일"; txt "4박"; txt "5일"].

(** [m1] asks for no more than [m2] in every category. *)
Definition counts_le (m1 m2 : gmap string Z) : Prop :=
  Forall (fun c => exists n1 n2, m1 !! c = Some n1 /\ m2 !! c = Some n2 /\ n1 <= n2)
         categories.


(** The five scalar fields of a profile, and how to read one from a
    profile and from an extraction result. *)
Inductive scalar_field := TravelDates | Duration | GroupType | Budget | TravelRegion.

Definition profile_field (f : scalar_field) (p : UserProfile) : option pystr :=
  match f with
  | TravelDates => travel_dates p
  | Duration => duration p
  | GroupType => group_type p
  | Budget => budget p
  | TravelRegion => travel_region p
  end.

Definition extracted_field (f : scalar_field) (e : ProfileInfo) : option pystr :=
  match f with
  | TravelDates => info_travel_dates e
  | Duration => info_duration e
  | GroupType => info_group_type e
  | Budget => info_budget e
  | TravelRegion => info_travel_region e
  end.

(** The extracted interest tags ([[]] when the key is missing or null). *)
Definition extracted_tags (e : ProfileInfo) : list pystr :=
  default [] (info_interests e).

(** A list of tags with every repetition after the first dropped. *)
Fixpoint first_seen (l : list pystr) : list pystr :=
  match l with
  | [] => []
  | x :: l' => x :: filter (fun y => y <> x) (first_seen l')
  end.

(** The names of the fields, among the six the gate counts, that hold a
    value: a non-empty text, or a non-empty tag list. *)
Definition fields_set (p : UserProfile) : list string :=
  (if truthy (travel_dates p) then ["travel_dates"%string] else [])
  ++ (if truthy (duration p) then ["duration"%string] else [])
  ++ (if truthy (group_type p) then ["group_type"%string] else [])
  ++ (match interests p with [] => [] | _ :: _ => ["interests"%string] end)
  ++ (if truthy (budget p) then ["budget"%string] else [])
  ++ (if truthy (travel_region p) then ["travel_region"%string] else []).

(** A profile in which only the duration is known. *)
Definition only_duration (d : pystr) : UserProfile :=
  {| travel_dates := None; duration := Some d; group_type := None;
     interests := []; budget := None; travel_region := None |}.

(** An attempt fails when the service answers with a status other than
    200, when the call raises (a read timeout, a connect timeout, or any
    other exception), or when the body of a 200 answer does not parse. *)
Definition fails (o : outcome) : bool :=
  match o with
  | Responds r =>
      if status_code r =? 200 then
        match json r with Some _ => false | None => true end
      else true
  | Raises _ => true
  end.

(** The items a successful attempt hands back: the list under [key],
    cut to the requested count. *)
Definition delivered (key : string) (o : outcome) (k : Z) : list (gmap string pystr) :=
  match o with
  | Responds r =>
      match json r with
      | Some b => slice_to (default [] (b !! key)) k
      | None => []
      end
  | Raises _ => []
  end.

(** The request of attempt [i] (counted from 0) as the design states it:
    read timeout [90 * (i + 1)] seconds, the other timeouts ten seconds. *)
Definition attempt_request (q : pystr) (k : Z) (i : Z) : request :=
  {| url := "http://localhost:8002/chat";
     body := {| query := q; top_k := k; search_type := mmr;
                diversity_lambda := Some 50; filters := None |};
     timeout := {| connect := 10; read := 90 * (i + 1); write := 10; pool := 10 |} |}.

(** The contract of a retrieval client with three attempts.  Started
    after the events [tr], a call ends in one of three ways, and always by
    returning:
    - the first attempt succeeds: one request, its items returned;
    - the first fails, the second succeeds: request, one second of sleep,
      request;
    - the first two fail: request, one second, request, two seconds,
      request, and the items of the third attempt or, when it fails too,
      the empty list. *)
Definition retry_contract
    (client : service -> pystr -> pystr -> Z -> M (list (gmap string pystr))) : Prop :=
  forall (srv : service) (q category : pystr) (k : Z) (tr : trace),
    let P := fun i => EvPost (attempt_request q k i) in
    let o0 := srv tr (attempt_request q k 0) in
    let o1 := srv (tr ++ [P 0; EvSleep 1]) (attempt_request q k 1) in
    let o2 := srv (tr ++ [P 0; EvSleep 1; P 1; EvSleep 2]) (attempt_request q k 2) in
    (fails o0 = false /\
     client srv q category k tr
     = (Returned (delivered "sources" o0 k), tr ++ [P 0]))
    \/
    (fails o0 = true /\ fails o1 = false /\
     client srv q category k tr
     = (Returned (delivered "sources" o1 k), tr ++ [P 0; EvSleep 1; P 1]))
    \/
    (fails o0 = true /\ fails o1 = true /\
     client srv q category k tr
     = (Returned (if fails o2 then [] else delivered "sources" o2 k),
        tr ++ [P 0; EvSleep 1; P 1; EvSleep 2; P 2])).

(** The events a call adds to those before it. *)
Definition posts (tr : trace) : list request :=
  omap (fun ev => match ev with EvPost r => Some r | EvSleep _ => None end) tr.

Definition sleeps (tr : trace) : list Z :=
  omap (fun ev => match ev with EvSleep s => Some s | EvPost _ => None end) tr.

(** No two items of the list have equal names (a missing name counts as
    the empty name, as [result.get('name', '')] reads it). *)
Definition distinct_names (l : list (gmap string pystr)) : Prop :=
  NoDup (item_name <$> l).

(** Every answer of the service with status 200 lists items with
    pairwise distinct names. *)
Definition answers_distinct (srv : service) : Prop :=
  forall tr req r b,
    srv tr req = Responds r -> status_code r = 200 -> json r = Some b ->
    distinct_names (default [] (b !! "sources"%string)).

(** An item that carries nothing but a name. *)
Definition named (n : string) : gmap string pystr := {[ "name"%string := txt n ]}.

(** A service that answers every request with the same three items, two
    of them under one name. *)
Definition repeating_service : service := fun _ _ =>
  Responds {| status_code := 200;
              json := Some {[ "sources"%string :=
                                [named "A"; named "A"; named "B"] ]} |}.

(** A service that answers every request with status 500. *)
Definition failing_service : service := fun _ _ =>
  Responds {| status_code := 500; json := None |}.

(** What the dispatcher shows for one category: the list its coroutine
    returned, or the empty list when the coroutine raised. *)
Definition surfaced (r : result (list (gmap string pystr))) : list (gmap string pystr) :=
  match r with
  | Returned l => l
  | Propagated _ => []
  end.

(** A service that answers every request with the same three items under
    three names. *)
Definition steady_service : service := fun _ _ =>
  Responds {| status_code := 200;
              json := Some {[ "sources"%string :=
                                [named "A"; named "B"; named "C"] ]} |}.

(** Unfolds the operations of the effect monad. *)
Ltac unfold_effects :=
  unfold try_except, post, sleep, json_of, raise, mbind, M_bind, mret, M_ret.

(** * Vocabulary of the further properties *)

(** The extraction result [{}], which the extraction functions return
    when the model's answer does not parse. *)
Definition empty_info : ProfileInfo :=
  {| info_travel_dates := None; info_duration := None; info_group_type := None;
     info_interests := None; info_budget := None; info_travel_region := None |}.

(** The numbers of a duration text, in reading order. *)
Definition numbers_of `{Unicode} (t : pystr) : list Z :=
  map int_of (findall_digits (lower t)).

(** A computation that only ever adds events to those before it. *)
Definition appends {A} (m : M A) : Prop :=
  forall tr : trace, exists (r : result A) (new : trace), m tr = (r, tr ++ new).

(** A computation that adds events and always returns. *)
Definition returns {A} (m : M A) : Prop :=
  forall tr : trace, exists (a : A) (new : trace), m tr = (Returned a, tr ++ new).

(** The state a turn of [chat] starts from. *)
Definition turn_state (stored : option GraphState) (message : pystr) : GraphState :=
  match stored with
  | Some values => SmartGraph.set_user_message values message
  | None => SmartGraph.fresh_state message
  end.

(** The profile after the turn's extraction is merged. *)
Definition merged_profile (extract : pystr -> UserProfile -> ProfileInfo)
    (state : GraphState) : UserProfile :=
  update_profile (user_profile state)
    (extract (user_message state) (user_profile state)).

(** A query generator that answers every category with the same text. *)
Definition fixed_query (q : string) : string -> UserProfile -> result pystr :=
  fun _ _ => Returned (txt q).

(** A state whose profile already passes the gate. *)
Definition ready_state : GraphState :=
  {| user_message := txt "일정 짜줘"; conversation_history := [];
     user_profile :=
       {| travel_dates := None; duration := Some (txt "2박3일");
          group_type := Some (txt "커플"); interests := [txt "맛집"];
          budget := None; travel_region := None |};
     hotel_results := []; travel_results := [];
     food_results := []; event_results := [];
     final_response := []; profile_ready := false |}.

(** An extraction that finds nothing. *)
Definition extract_nothing : pystr -> UserProfile -> ProfileInfo :=
  fun _ _ => empty_info.

(** The timeouts of the baseline's shared client: those of the client
    the module already holds, else those the first call builds. *)
Definition client_of (global_http_client : option Timeout) : Timeout :=
  default {| connect := 10; read := 120; write := 10; pool := 10 |} global_http_client.

(** The categories, among [todo], for which the language model gave a
    query, each with its query, in the order of [todo]. *)
Definition generated (llm : string -> UserProfile -> result pystr)
    (profile : UserProfile) (todo : list string) : list (string * pystr) :=
  omap (fun c => match llm c profile with
                 | Returned q => Some (c, q)
                 | Propagated _ => None
                 end) todo.


(** The demo's user table with two users. *)
Definition two_users : list (pystr * DemoProfile.user_info) :=
  [(txt "민수", {| DemoProfile.info_personality := Some (txt "테토남");
                   DemoProfile.info_travel_style := Some (txt "액티비티") |});
   (txt "지은", {| DemoProfile.info_personality := Some (txt "에겐녀");
                   DemoProfile.info_travel_style := Some (txt "힐링") |})].

(** A fresh state of the personalized graph for a message. *)
Definition personalized_fresh_state (message : pystr) : DemoProfile.PersonalizedGraphState :=
  {| DemoProfile.user_message := message;
     DemoProfile.conversation_history := [];
     DemoProfile.user_profile := DemoProfile.empty_profile;
     DemoProfile.hotel_results := []; DemoProfile.travel_results := [];
     DemoProfile.food_results := []; DemoProfile.event_results := [];
     DemoProfile.final_response := []; DemoProfile.profile_ready := false |}.

(** The seconds a run spends asleep. *)
Definition seconds_asleep (tr : trace) : Z := foldr Z.add 0 (sleeps tr).

(** The fixed apology of the response node. *)
Definition response_apology : pystr :=
  txt "죄송합니다. 일정 생성 중 오류가 발생했습니다.".
(** * Properties *)

(** ** DemandPlanner *)

Lemma counts_for_days_cases (days : Z) :
  (days <= 1 /\ counts_for_days days = mk_counts 3 4 3 3) \/
  (days = 2 /\ counts_for_days days = mk_counts 3 6 5 3) \/
  (days = 3 /\ counts_for_days days = mk_counts 4 8 7 3) \/
  (days = 4 /\ counts_for_days days = mk_counts 4 12 10 3) \/
  (days = 5 /\ counts_for_days days = mk_counts 5 15 13 3) \/
  (5 < days /\ counts_for_days days = mk_counts 5 18 16 3).
Proof.
  unfold counts_for_days.
  destruct (Z.leb_spec days 1); [left; done|].
  destruct (Z.leb_spec days 2); [right; left; split; [lia|done]|].
  destruct (Z.leb_spec days 3); [do 2 right; left; split; [lia|done]|].
  destruct (Z.leb_spec days 4); [do 3 right; left; split; [lia|done]|].
  destruct (Z.leb_spec days 5); [do 4 right; left; split; [lia|done]|].
  do 5 right; split; [lia|done].
Qed.

Lemma mk_counts_le (h1 t1 f1 e1 h2 t2 f2 e2 : Z) :
  h1 <= h2 -> t1 <= t2 -> f1 <= f2 -> e1 <= e2 ->
  counts_le (mk_counts h1 t1 f1 e1) (mk_counts h2 t2 f2 e2).
Proof.
  intros Hh Ht Hf He. unfold counts_le, categories.
  repeat apply Forall_cons_2; [..|apply Forall_nil_2];
    eexists _, _; (split; [reflexivity|split; [reflexivity|assumption]]).
Qed.

Lemma counts_for_days_mono (d1 d2 : Z) :
  d1 <= d2 -> counts_le (counts_for_days d1) (counts_for_days d2).
Proof.
  intros Hle.
  destruct (counts_for_days_cases d1) as [[? ->]|[[? ->]|[[? ->]|[[? ->]|[[? ->]|[? ->]]]]]];
  destruct (counts_for_days_cases d2) as [[? ->]|[[? ->]|[[? ->]|[[? ->]|[[? ->]|[? ->]]]]]];
  try lia; apply mk_counts_le; lia.
Qed.

Lemma truthy_cons (c : N) (t : pystr) : truthy (Some (c :: t)) = true.
Proof. reflexivity. Qed.

Lemma calculate_search_counts_nonempty `{Unicode} (t : pystr) :
  t <> [] -> calculate_search_counts (Some t) = counts_for_days (infer_days t).
Proof. destruct t; [done|]. reflexivity. Qed.

Lemma any_in_app_false (ws1 ws2 : list pystr) (s : pystr) :
  any_in (ws1 ++ ws2) s = false -> any_in ws1 s = false /\ any_in ws2 s = false.
Proof.
  unfold any_in. rewrite existsb_app. apply orb_false_elim.
Qed.

Lemma days_by_keyword_default (s : pystr) :
  any_in recognized_keywords s = false -> days_by_keyword s = 3.
Proof.
  intros Hnone. unfold days_by_keyword.
  change recognized_keywords with
    ([txt "당일"; txt "하루"] ++ [txt "1박"; txt "2일"] ++ [txt "2박"; txt "3일"]
     ++ [txt "3박"; txt "4일"] ++ [txt "4박"; txt "5일"]) in Hnone.
  apply any_in_app_false in Hnone as [-> Hnone].
  apply any_in_app_false in Hnone as [-> Hnone].
  apply any_in_app_false in Hnone as [-> Hnone].
  apply any_in_app_false in Hnone as [-> ->].
  reflexivity.
Qed.

(** C5: the counts grow with the day count in every category, across
    all six buckets: for any two day counts [d1 <= d2] the bucket of [d1]
    asks for no more hotels, tours, food places or events than the bucket
    of [d2]; and so for any two non-empty duration texts, ordered by the
    day count the planner infers from them. *)
Theorem calculate_search_counts_monotone `{Unicode} :
  (forall d1 d2 : Z,
     d1 <= d2 -> counts_le (counts_for_days d1) (counts_for_days d2)) /\
  (forall t1 t2 : pystr,
     t1 <> [] -> t2 <> [] ->
     infer_days t1 <= infer_days t2 ->
     counts_le (calculate_search_counts (Some t1)) (calculate_search_counts (Some t2))).
Proof.
  split; [apply counts_for_days_mono|].
  intros t1 t2 Ht1 Ht2 Hle.
  rewrite !calculate_search_counts_nonempty by assumption.
  by apply counts_for_days_mono.
Qed.

Lemma calculate_search_counts_monotone_witness :
  counts_le (calculate_search_counts (Some (txt "1박2일")))
            (calculate_search_counts (Some (txt "3박4일"))).
Proof.
  apply (proj2 (@calculate_search_counts_monotone ascii_unicode)
           (txt "1박2일") (txt "3박4일")).
  - vm_compute. discriminate.
  - vm_compute. discriminate.
  - vm_compute. discriminate.
Defined.

(** C3, as the code has it: a non-empty duration text with no digit run
    and none of the recognized keywords gets the bucket of three days,
    hotel 4, tour 8, food 7, event 3; a missing or empty duration text
    gets the separate default hotel 3, tour 8, food 6, event 3. *)
Theorem calculate_search_counts_default `{Unicode} :
  calculate_search_counts None = mk_counts 3 8 6 3 /\
  calculate_search_counts (Some []) = mk_counts 3 8 6 3 /\
  forall t : pystr,
    t <> [] ->
    findall_digits (lower t) = [] ->
    any_in recognized_keywords (lower t) = false ->
    calculate_search_counts (Some t) = mk_counts 4 8 7 3.
Proof.
  split; [reflexivity|]. split; [reflexivity|].
  intros t Ht Hdigits Hkw.
  rewrite calculate_search_counts_nonempty by assumption.
  unfold infer_days. rewrite Hdigits.
  by rewrite days_by_keyword_default.
Qed.

Lemma calculate_search_counts_default_witness :
  calculate_search_counts (Some (txt "아직 몰라요")) = mk_counts 4 8 7 3.
Proof.
  apply (@calculate_search_counts_default ascii_unicode).
  - vm_compute. discriminate.
  - vm_compute. reflexivity.
  - vm_compute. reflexivity.
Defined.

(** C3 as stated fails on the empty text: the planner answers with three
    hotels and six food places, not with the bucket of three days. *)
Lemma calculate_search_counts_empty_not_bucket3 :
  calculate_search_counts (Some (txt "")) = mk_counts 3 8 6 3 /\
  calculate_search_counts (Some (txt "")) <> counts_for_days 3.
Proof.
  split; [reflexivity|].
  intros Heq. apply (f_equal (fun m => m !! "hotel"%string)) in Heq.
  vm_compute in Heq. discriminate.
Qed.

(** The second end-to-end scenario of the design: two nights and three
    days give four hotels, eight tours, seven food places, three events. *)
Example calculate_search_counts_2n3d :
  calculate_search_counts (Some (txt "2박3일")) = mk_counts 4 8 7 3.
Proof. reflexivity. Qed.

(** ** ProfileStore *)

Lemma append_new_known (cur new_interests : list pystr) :
  (forall t, t ∈ new_interests -> t ∈ cur) -> append_new cur new_interests = cur.
Proof.
  induction new_interests as [|x rest IH]; intros Hall; [done|].
  simpl. rewrite decide_True by (apply Hall; left).
  apply IH. intros t Ht. apply Hall. by right.
Qed.

Lemma append_new_extends (cur new_interests : list pystr) (t : pystr) :
  t ∈ cur -> t ∈ append_new cur new_interests.
Proof.
  revert cur. induction new_interests as [|x rest IH]; intros cur Ht; [done|].
  simpl. apply IH. case_decide; [done|]. apply elem_of_app. by left.
Qed.

Lemma append_new_covers (cur new_interests : list pystr) (t : pystr) :
  t ∈ new_interests -> t ∈ append_new cur new_interests.
Proof.
  revert cur. induction new_interests as [|x rest IH]; intros cur Ht.
  - by apply elem_of_nil in Ht.
  - simpl. apply elem_of_cons in Ht as [->|Ht]; [|by apply IH].
    apply append_new_extends. case_decide; [done|].
    apply elem_of_app. right. by left.
Qed.

Lemma append_new_idempotent (cur new_interests : list pystr) :
  append_new (append_new cur new_interests) new_interests = append_new cur new_interests.
Proof. apply append_new_known. intros t. apply append_new_covers. Qed.

Lemma first_seen_filter (P : pystr -> Prop) `{!forall x, Decision (P x)} (l : list pystr) :
  first_seen (filter P l) = filter P (first_seen l).
Proof.
  induction l as [|y l IH]; [done|].
  destruct (decide (P y)) as [Hy|Hy].
  - rewrite filter_cons_True by done. simpl.
    rewrite filter_cons_True by done. rewrite IH.
    f_equal. rewrite !list_filter_filter. apply list_filter_iff. intros x; tauto.
  - rewrite filter_cons_False by done. simpl.
    rewrite filter_cons_False by done. rewrite IH.
    rewrite list_filter_filter. apply list_filter_iff.
    intros x. split; [|tauto]. intros Hx. split; [done|]. by intros ->.
Qed.

Lemma elem_of_first_seen (l : list pystr) (t : pystr) : t ∈ first_seen l <-> t ∈ l.
Proof.
  induction l as [|x l IH]; [done|]. simpl.
  rewrite !elem_of_cons, list_elem_of_filter, IH.
  destruct (decide (t = x)); intuition congruence.
Qed.

Lemma NoDup_first_seen (l : list pystr) : NoDup (first_seen l).
Proof.
  induction l as [|x l IH]; simpl; [constructor|].
  apply NoDup_cons. split; [|by apply NoDup_filter].
  rewrite list_elem_of_filter. tauto.
Qed.

Lemma append_new_first_seen (cur new_interests : list pystr) :
  append_new cur new_interests
  = cur ++ first_seen (filter (fun t => t ∉ cur) new_interests).
Proof.
  revert cur. induction new_interests as [|x rest IH]; intros cur.
  - simpl. by rewrite app_nil_r.
  - simpl. case_decide as Hx.
    + rewrite filter_cons_False by tauto. apply IH.
    + rewrite filter_cons_True by done. rewrite IH. simpl.
      rewrite <- app_assoc. simpl. do 2 f_equal.
      rewrite <- first_seen_filter. f_equal.
      rewrite list_filter_filter. apply list_filter_iff.
      intros t. rewrite not_elem_of_app, list_elem_of_singleton. tauto.
Qed.

Lemma update_profile_interests (p : UserProfile) (e : ProfileInfo) :
  interests (update_profile p e) = append_new (interests p) (extracted_tags e).
Proof.
  unfold update_profile, extracted_tags.
  destruct (truthy (info_travel_dates e)), (truthy (info_duration e)),
    (truthy (info_group_type e)), (truthy (info_budget e)),
    (truthy (info_travel_region e));
    destruct (info_interests e) as [[|t ts]|]; reflexivity.
Qed.

Lemma update_profile_scalar (p : UserProfile) (e : ProfileInfo) (f : scalar_field) :
  profile_field f (update_profile p e)
  = if truthy (extracted_field f e) then extracted_field f e else profile_field f p.
Proof.
  unfold update_profile.
  destruct f; simpl;
    destruct (truthy (info_travel_dates e)), (truthy (info_duration e)),
      (truthy (info_group_type e)), (truthy_list (info_interests e)),
      (truthy (info_budget e)), (truthy (info_travel_region e));
    reflexivity.
Qed.

Lemma profile_ext (p q : UserProfile) :
  (forall f, profile_field f p = profile_field f q) ->
  interests p = interests q -> p = q.
Proof.
  intros Hf Hi. destruct p, q. simpl in Hi.
  pose proof (Hf TravelDates). pose proof (Hf Duration).
  pose proof (Hf GroupType). pose proof (Hf Budget).
  pose proof (Hf TravelRegion). simpl in *. congruence.
Qed.

(** C6, as the code has it: after [update_profile], each scalar field
    holds the extracted value when that value is neither null nor the
    empty text, and keeps the profile's value otherwise; the tag list is
    the profile's list followed by the extracted tags that were not yet in
    it, each once, in the order of their first appearance. *)
Theorem update_profile_merges (p : UserProfile) (e : ProfileInfo) :
  (forall f : scalar_field,
     profile_field f (update_profile p e)
     = if truthy (extracted_field f e) then extracted_field f e
       else profile_field f p) /\
  interests (update_profile p e)
  = interests p ++ first_seen (filter (fun t => t ∉ interests p) (extracted_tags e)) /\
  NoDup (first_seen (filter (fun t => t ∉ interests p) (extracted_tags e))) /\
  (forall t, t ∈ interests (update_profile p e) <->
             t ∈ interests p \/ t ∈ extracted_tags e).
Proof.
  split; [apply update_profile_scalar|].
  rewrite update_profile_interests, append_new_first_seen.
  split; [done|]. split; [apply NoDup_first_seen|].
  intros t. rewrite elem_of_app, elem_of_first_seen, list_elem_of_filter.
  destruct (decide (t ∈ interests p)); tauto.
Qed.

(** C6 as stated fails for an extracted value that is not null but the
    empty text: it does not overwrite the field. *)
Lemma update_profile_keeps_on_empty_text :
  let p := only_duration (txt "2박3일") in
  let e := {| info_travel_dates := None; info_duration := Some (txt "");
              info_group_type := None; info_interests := None;
              info_budget := None; info_travel_region := None |} in
  info_duration e <> None /\
  duration (update_profile p e) <> info_duration e /\
  duration (update_profile p e) = Some (txt "2박3일").
Proof. vm_compute. split; [discriminate|]. split; [discriminate|reflexivity]. Qed.

(** C7: merging the same extraction result a second time changes
    nothing. *)
Theorem update_profile_idempotent (p : UserProfile) (e : ProfileInfo) :
  update_profile (update_profile p e) e = update_profile p e.
Proof.
  apply profile_ext.
  - intros f. rewrite update_profile_scalar.
    rewrite (update_profile_scalar p e f).
    by destruct (truthy (extracted_field f e)).
  - rewrite !update_profile_interests. apply append_new_idempotent.
Qed.

Lemma required_info_count_fields_set (p : UserProfile) :
  required_info_count p = Z.of_nat (length (fields_set p)).
Proof.
  unfold required_info_count, fields_set.
  destruct (truthy (travel_dates p)), (truthy (duration p)),
    (truthy (group_type p)), (interests p), (truthy (budget p)),
    (truthy (travel_region p)); reflexivity.
Qed.

(** C4: the gate opens exactly when at least three of the six fields hold
    a value; a profile in which only the duration is known keeps it shut,
    and the turn that leaves the profile in that state ends at the profile
    node, with [profile_ready] false and no search started. *)
Theorem is_profile_sufficient_threshold :
  (forall p : UserProfile,
     is_profile_sufficient p = true <-> (3 <= length (fields_set p))%nat) /\
  (forall d : pystr, is_profile_sufficient (only_duration d) = false) /\
  (forall extract respond (state : GraphState) (d : pystr),
     update_profile (user_profile state)
       (extract (user_message state) (user_profile state)) = only_duration d ->
     let state' := profile_collector_node extract respond state in
     profile_ready state' = false /\
     should_continue_to_agents state' = "end"%string /\
     user_profile state' = only_duration d).
Proof.
  split; [|split].
  - intros p. unfold is_profile_sufficient.
    rewrite required_info_count_fields_set. rewrite Z.geb_le. lia.
  - intros [|c d]; reflexivity.
  - intros extract respond state d Hupd. unfold profile_collector_node.
    rewrite Hupd.
    assert (is_profile_sufficient (only_duration d) = false) as ->
      by (destruct d; reflexivity).
    done.
Qed.

Lemma is_profile_sufficient_threshold_witness :
  let extract := fun (_ : pystr) (_ : UserProfile) =>
    {| info_travel_dates := None; info_duration := Some (txt "2박3일");
       info_group_type := None; info_interests := None;
       info_budget := None; info_travel_region := None |} in
  let respond := fun (_ : UserProfile) (_ : pystr) (_ : list (string * pystr)) =>
    txt "who is travelling?" in
  let state := {| user_message := txt "2박3일"; conversation_history := [];
                  user_profile := empty_profile;
                  hotel_results := []; travel_results := [];
                  food_results := []; event_results := [];
                  final_response := []; profile_ready := false |} in
  let state' := profile_collector_node extract respond state in
  profile_ready state' = false /\
  should_continue_to_agents state' = "end"%string /\
  user_profile state' = only_duration (txt "2박3일").
Proof.
  intros extract respond state.
  apply (proj2 (proj2 is_profile_sufficient_threshold) extract respond state
           (txt "2박3일")).
  reflexivity.
Defined.

(** ** RetrievalClient *)

Lemma smart_attempt_body_spec (srv : service) (q : pystr) (k i : Z) (tr : trace) :
  let o := srv tr (attempt_request q k i) in
  SmartChatbot.attempt_body srv q k i tr
  = if fails o then
      if i <? 2 then (Returned Continue, tr ++ [EvPost (attempt_request q k i); EvSleep (2 ^ i)])
      else (Returned (Return []), tr ++ [EvPost (attempt_request q k i)])
    else (Returned (Return (delivered "sources" o k)),
          tr ++ [EvPost (attempt_request q k i)]).
Proof.
  unfold SmartChatbot.attempt_body, SmartChatbot.backoff_or_give_up.
  change (SmartChatbot.search_request q k i) with (attempt_request q k i).
  change (SmartChatbot.max_retries - 1) with 2.
  unfold_effects. simpl.
  destruct (srv tr (attempt_request q k i)) as [[s [b|]]|e]; simpl;
    try destruct (s =? 200); simpl;
    try destruct e; simpl;
    destruct (i <? 2); simpl; rewrite <- ?app_assoc; reflexivity.
Qed.

Lemma demo_attempt_body_spec (srv : service) (q : pystr) (k i : Z) (tr : trace) :
  DemoPersonalized.attempt_body srv q k i tr = SmartChatbot.attempt_body srv q k i tr.
Proof.
  unfold SmartChatbot.attempt_body, SmartChatbot.backoff_or_give_up,
    DemoPersonalized.attempt_body.
  change (DemoPersonalized.search_request q k i)
    with (SmartChatbot.search_request q k i).
  change DemoPersonalized.max_retries with SmartChatbot.max_retries.
  unfold_effects.
  destruct (srv tr (SmartChatbot.search_request q k i)) as [[s [b|]]|e]; simpl;
    try destruct (s =? 200); simpl; try destruct e;
    destruct (i <? SmartChatbot.max_retries - 1); reflexivity.
Qed.

Lemma demo_search_vector_db_eq (srv : service) (q category : pystr) (k : Z) (tr : trace) :
  DemoPersonalized.search_vector_db srv q category k tr
  = SmartChatbot.search_vector_db srv q category k tr.
Proof.
  unfold DemoPersonalized.search_vector_db, SmartChatbot.search_vector_db.
  change DemoPersonalized.max_retries with SmartChatbot.max_retries.
  generalize (Z.to_nat SmartChatbot.max_retries) as n. generalize 0 as i.
  intros i n. revert i tr. induction n as [|n IH]; intros i tr; [reflexivity|].
  simpl. unfold mbind, M_bind. rewrite demo_attempt_body_spec.
  destruct (SmartChatbot.attempt_body srv q k i tr) as [[[| |v]|e] tr']; try reflexivity.
  apply IH.
Qed.

Lemma smart_attempts_step (srv : service) (q : pystr) (k i : Z) (n : nat) (tr : trace) :
  let o := srv tr (attempt_request q k i) in
  SmartChatbot.attempts_from srv q k (S n) i tr
  = if fails o then
      if i <? 2
      then SmartChatbot.attempts_from srv q k n (i + 1)
             (tr ++ [EvPost (attempt_request q k i); EvSleep (2 ^ i)])
      else (Returned [], tr ++ [EvPost (attempt_request q k i)])
    else (Returned (delivered "sources" o k), tr ++ [EvPost (attempt_request q k i)]).
Proof.
  simpl. unfold mbind, M_bind. rewrite smart_attempt_body_spec.
  destruct (fails (srv tr (attempt_request q k i))); [|reflexivity].
  destruct (i <? 2); reflexivity.
Qed.

Lemma smart_retry_contract : retry_contract SmartChatbot.search_vector_db.
Proof.
  intros srv q category k tr P o0 o1 o2.
  unfold SmartChatbot.search_vector_db.
  change (Z.to_nat SmartChatbot.max_retries) with 3%nat.
  rewrite smart_attempts_step. fold o0.
  destruct (fails o0); [right|left; split; [done|reflexivity]].
  change (0 <? 2) with true. cbv iota.
  rewrite smart_attempts_step. change (0 + 1) with 1. change (2 ^ 0) with 1.
  fold (P 0). fold o1.
  destruct (fails o1); [right|left].
  - split; [done|]. split; [done|].
    change (1 <? 2) with true. cbv iota.
    rewrite smart_attempts_step. change (1 + 1) with 2. change (2 ^ 1) with 2.
    fold (P 1). rewrite <- app_assoc.
    change ([P 0; EvSleep 1] ++ [P 1; EvSleep 2])
      with [P 0; EvSleep 1; P 1; EvSleep 2].
    fold o2. change (2 <? 2) with false. cbv iota. fold (P 2).
    destruct (fails o2); rewrite <- app_assoc; reflexivity.
  - split; [done|]. split; [done|]. rewrite <- app_assoc. reflexivity.
Qed.

(** C1: the retrieval clients of [smart_chatbot.py] and of
    [demo_personalized_chatbot.py] make at most three attempts; attempt
    [i] posts with a read timeout of [90 * (i + 1)] seconds and connect,
    write and pool timeouts of ten seconds; after a failed first attempt
    the client sleeps one second and after a failed second attempt two
    seconds; and when all three attempts fail it returns the empty list,
    it does not raise. *)
Theorem search_vector_db_retries :
  retry_contract SmartChatbot.search_vector_db /\
  retry_contract DemoPersonalized.search_vector_db.
Proof.
  split; [apply smart_retry_contract|].
  intros srv q category k tr. cbv zeta.
  rewrite demo_search_vector_db_eq. apply smart_retry_contract.
Qed.

(** The third end-to-end scenario of the design: a service that always
    answers 500 is asked three times, with one and two seconds between,
    and the client returns the empty list. *)
Example search_vector_db_always_500 :
  SmartChatbot.search_vector_db failing_service (txt "제주 호텔 추천") (txt "hotel") 4 []
  = (Returned [],
     [EvPost (attempt_request (txt "제주 호텔 추천") 4 0); EvSleep 1;
      EvPost (attempt_request (txt "제주 호텔 추천") 4 1); EvSleep 2;
      EvPost (attempt_request (txt "제주 호텔 추천") 4 2)]).
Proof. reflexivity. Qed.

(** C10: one call of the baseline's [search_vector_db] posts exactly one
    request and never sleeps; the timeouts are those of the shared client,
    the same for every call; on status 200 it returns the items under
    ["results"] cut to the requested count, and on any other status or
    any exception it returns the empty list, without raising. *)
Theorem baseline_search_vector_db_single_request
    (srv : service) (global_http_client : option Timeout)
    (q category : pystr) (k : Z) (tr : trace) :
  let client :=
    default {| connect := 10; read := 120; write := 10; pool := 10 |}
            global_http_client in
  let req := SingleChainBaseline.search_request client q k in
  SingleChainBaseline.search_vector_db srv global_http_client q category k tr
  = (Returned (if fails (srv tr req) then [] else delivered "results" (srv tr req) k,
               Some client),
     tr ++ [EvPost req]).
Proof.
  unfold SingleChainBaseline.search_vector_db. unfold_effects.
  destruct global_http_client as [client|]; simpl;
    match goal with |- context [srv tr ?r] => destruct (srv tr r) as [[s [b|]]|e] end;
    simpl; try destruct (s =? 200); reflexivity.
Qed.

(** ** BatchSplitter *)

Lemma distinct_names_slice_to (l : list (gmap string pystr)) (k : Z) :
  distinct_names l -> distinct_names (slice_to l k).
Proof.
  unfold distinct_names, slice_to. intros Hl.
  destruct (0 <=? k); rewrite fmap_take;
    (eapply sublist_NoDup; [exact Hl|apply sublist_take]).
Qed.

Lemma distinct_names_nil : distinct_names [].
Proof. constructor. Qed.

Lemma distinct_delivered (srv : service) (tr : trace) (req : request) (k : Z) :
  answers_distinct srv ->
  distinct_names (if fails (srv tr req) then [] else delivered "sources" (srv tr req) k).
Proof.
  intros Hsrv. unfold fails, delivered.
  destruct (srv tr req) as [r|e] eqn:Ho; [|apply distinct_names_nil].
  destruct (status_code r =? 200) eqn:Hs; [|apply distinct_names_nil].
  destruct (json r) as [b|] eqn:Hj; [|apply distinct_names_nil].
  apply distinct_names_slice_to. eapply Hsrv; eauto. lia.
Qed.

Lemma search_vector_db_distinct (srv : service) (q category : pystr) (k : Z) (tr : trace) :
  answers_distinct srv ->
  exists l tr',
    SmartChatbot.search_vector_db srv q category k tr = (Returned l, tr') /\
    distinct_names l.
Proof.
  intros Hsrv.
  destruct (smart_retry_contract srv q category k tr)
    as [[F ->]|[(F0 & F1 & ->)|(F0 & F1 & ->)]]; eexists _, _; (split; [reflexivity|]).
  - pose proof (distinct_delivered srv tr (attempt_request q k 0) k Hsrv) as Hd.
    by rewrite F in Hd.
  - match goal with |- distinct_names (delivered _ (srv ?t ?r) _) =>
      pose proof (distinct_delivered srv t r k Hsrv) as Hd end.
    by rewrite F1 in Hd.
  - by apply distinct_delivered.
Qed.

Lemma distinct_names_extend (all_results batch_results : list (gmap string pystr)) :
  distinct_names all_results ->
  distinct_names batch_results ->
  distinct_names
    (all_results ++
     filter (fun r => item_name r ∉ (list_to_set (item_name <$> all_results) : gset pystr))
            batch_results).
Proof.
  unfold distinct_names. intros Hall Hbatch.
  rewrite fmap_app. apply NoDup_app. split; [done|]. split.
  - intros n Hn Hin. apply list_elem_of_fmap in Hin as (r & -> & Hr).
    apply list_elem_of_filter in Hr as [Hnotin _].
    apply Hnotin. by apply elem_of_list_to_set.
  - eapply sublist_NoDup; [exact Hbatch|].
    apply fmap_sublist. apply sublist_filter.
Qed.

Lemma batch_body_distinct (srv : service) (q category : pystr)
    (total_count batch_size batches_needed batch_num : Z)
    (all_results : list (gmap string pystr)) (tr : trace) :
  answers_distinct srv ->
  distinct_names all_results ->
  exists c all_results' tr',
    BatchSplitter.batch_body srv q category total_count batch_size batches_needed
      batch_num all_results tr = (Returned (c, all_results'), tr') /\
    distinct_names all_results'.
Proof.
  intros Hsrv Hall. unfold BatchSplitter.batch_body, try_except.
  unfold mbind at 1, M_bind at 1.
  match goal with |- context [SmartChatbot.search_vector_db srv ?a ?b ?c tr] =>
    destruct (search_vector_db_distinct srv a b c tr Hsrv) as (l & tr1 & -> & Hl) end.
  pose proof (distinct_names_extend all_results l Hall Hl) as Hext.
  destruct (_ >=? total_count); [by eexists _, _, _|].
  destruct (_ && _); [by eexists _, _, _|].
  unfold_effects. destruct (batch_num <? batches_needed - 1); by eexists _, _, _.
Qed.

Lemma batches_from_distinct (srv : service) (q category : pystr)
    (total_count batch_size batches_needed : Z) (rounds : nat) (batch_num : Z)
    (all_results : list (gmap string pystr)) (tr : trace) :
  answers_distinct srv ->
  distinct_names all_results ->
  exists l tr',
    BatchSplitter.batches_from srv q category total_count batch_size batches_needed
      rounds batch_num all_results tr = (Returned l, tr') /\
    distinct_names l.
Proof.
  intros Hsrv. revert batch_num all_results tr.
  induction rounds as [|rounds IH]; intros batch_num all_results tr Hall.
  - by eexists _, _.
  - simpl. unfold mbind, M_bind.
    destruct (batch_body_distinct srv q category total_count batch_size
                batches_needed batch_num all_results tr Hsrv Hall)
      as (c & all' & tr1 & -> & Hall').
    destruct c; simpl; [by apply IH|by eexists _, _..].
Qed.

(** C2, as the code has it: when every answer of the retrieval service
    lists items with pairwise distinct names, the list that
    [search_with_batching] returns has no two items with equal names; and
    the call returns such a list unless the requested total exceeds twenty
    and the batch size is zero, when the division raises. *)
Theorem search_with_batching_distinct_names
    (srv : service) (q category : pystr) (total_count batch_size : Z) (tr : trace) :
  answers_distinct srv ->
  match (BatchSplitter.search_with_batching srv q category total_count batch_size tr).1 with
  | Returned l => distinct_names l
  | Propagated e => e = ZeroDivisionError /\ batch_size = 0 /\ 20 < total_count
  end.
Proof.
  intros Hsrv. unfold BatchSplitter.search_with_batching.
  destruct (Z.leb_spec total_count 20) as [Hle|Hgt].
  - destruct (search_vector_db_distinct srv q category total_count tr Hsrv)
      as (l & tr' & -> & Hl).
    exact Hl.
  - unfold BatchSplitter.floordiv. unfold mbind at 1, M_bind at 1.
    destruct (Z.eqb_spec batch_size 0) as [->|Hbs]; [done|].
    unfold mret at 1, M_ret at 1. unfold mbind, M_bind.
    match goal with |- context [BatchSplitter.batches_from srv q category ?a ?b ?c ?d ?e ?f tr] =>
      destruct (batches_from_distinct srv q category a b c d e f tr Hsrv
                  distinct_names_nil) as (l & tr' & -> & Hl) end.
    simpl. by apply distinct_names_slice_to.
Qed.

Lemma steady_service_distinct : answers_distinct steady_service.
Proof.
  intros tr req r b Hr _ Hb. injection Hr as <-. injection Hb as <-.
  unfold distinct_names. apply (bool_decide_unpack _). by vm_compute.
Qed.

Lemma search_with_batching_distinct_names_witness :
  match (BatchSplitter.search_with_batching steady_service (txt "제주 맛집 추천")
           (txt "food") 21 3 []).1 with
  | Returned l => distinct_names l
  | Propagated e => e = ZeroDivisionError /\ 3 = 0 /\ 20 < 21
  end.
Proof.
  apply (search_with_batching_distinct_names steady_service (txt "제주 맛집 추천")
           (txt "food") 21 3 []).
  apply steady_service_distinct.
Defined.

(** C2 as stated fails when one answer of the service repeats a name:
    names are only compared with those of earlier batches, and a request
    for at most twenty items is passed on without any comparison. *)
Lemma search_with_batching_repeats_a_name :
  (BatchSplitter.search_with_batching repeating_service (txt "제주 호텔 추천")
     (txt "hotel") 21 3 []).1
  = Returned [named "A"; named "A"; named "B"] /\
  (BatchSplitter.search_with_batching repeating_service (txt "제주 호텔 추천")
     (txt "hotel") 5 3 []).1
  = Returned [named "A"; named "A"; named "B"] /\
  ~ distinct_names [named "A"; named "A"; named "B"].
Proof.
  split; [vm_compute; reflexivity|]. split; [vm_compute; reflexivity|].
  unfold distinct_names. intros Hnd.
  apply NoDup_cons in Hnd as [Hnotin _]. apply Hnotin. left.
Qed.

(** ** CategoryDispatcher *)

Lemma search_vector_db_all_fail (srv : service) (q category : pystr) (k : Z) (tr : trace) :
  (forall tr' req, fails (srv tr' req) = true) ->
  (DemoPersonalized.search_vector_db srv q category k tr).1 = Returned [].
Proof.
  intros Hfail. rewrite demo_search_vector_db_eq.
  destruct (smart_retry_contract srv q category k tr)
    as [[F _]|[(_ & F & _)|(_ & _ & ->)]].
  - by rewrite Hfail in F.
  - by rewrite Hfail in F.
  - by rewrite Hfail.
Qed.

(** C8: the fan-in of the concurrent dispatcher is computed from the
    outcomes of all four category coroutines; under each of the four keys
    it holds the list that category's own coroutine returned, or the empty
    list when that coroutine raised, whatever the other three did; and a
    category whose retrieval used up its retries shows the empty list
    while the other three lists are handed on as they are. *)
Theorem personalized_parallel_search_all_isolates :
  (forall hotel tour food event : result (list (gmap string pystr)),
     let found :=
       DemoPersonalized.personalized_parallel_search_all hotel tour food event in
     found !! "hotel_results"%string = Some (surfaced hotel) /\
     found !! "travel_results"%string = Some (surfaced tour) /\
     found !! "food_results"%string = Some (surfaced food) /\
     found !! "event_results"%string = Some (surfaced event) /\
     found = DemoPersonalized.search_results
               (surfaced hotel) (surfaced tour) (surfaced food) (surfaced event)) /\
  (forall (srv : service) (q category : pystr) (k : Z) (tr : trace)
          (tour food event : list (gmap string pystr)),
     (forall tr' req, fails (srv tr' req) = true) ->
     DemoPersonalized.personalized_parallel_search_all
       (DemoPersonalized.category_task srv true q category k tr).1
       (Returned tour) (Returned food) (Returned event)
     = DemoPersonalized.search_results [] tour food event).
Proof.
  split.
  - intros [h|eh] [t|et] [f|ef] [e|ee]; repeat split; reflexivity.
  - intros srv q category k tr tour food event Hfail.
    unfold DemoPersonalized.category_task.
    by rewrite search_vector_db_all_fail.
Qed.

Lemma personalized_parallel_search_all_isolates_witness :
  DemoPersonalized.personalized_parallel_search_all
    (DemoPersonalized.category_task failing_service true (txt "제주 호텔 추천")
       (txt "hotel") 4 []).1
    (Returned [named "성산일출봉"]) (Returned [named "흑돼지"]) (Returned [])
  = DemoPersonalized.search_results [] [named "성산일출봉"] [named "흑돼지"] [].
Proof.
  apply (proj2 personalized_parallel_search_all_isolates failing_service).
  intros tr' req. reflexivity.
Defined.

(** * Further properties *)

(** ** ProfileStore: what a merge keeps *)

Lemma truthy_update_profile (p : UserProfile) (e : ProfileInfo) (f : scalar_field) :
  truthy (profile_field f (update_profile p e))
  = truthy (extracted_field f e) || truthy (profile_field f p).
Proof.
  rewrite update_profile_scalar.
  destruct (truthy (extracted_field f e)) eqn:He; [by rewrite He|reflexivity].
Qed.

Lemma update_profile_interests_prefix (p : UserProfile) (e : ProfileInfo) :
  interests p `prefix_of` interests (update_profile p e).
Proof.
  rewrite update_profile_interests, append_new_first_seen. by eexists.
Qed.

(** X1: a merge never takes a value away.  A scalar field holds a value
    after [update_profile] exactly when the extraction brought one or the
    profile had one, and a field that held a value before still holds the
    extracted or the old one; the old tag list is a prefix of the new. *)
Theorem update_profile_never_regresses (p : UserProfile) (e : ProfileInfo) :
  (forall f : scalar_field,
     truthy (profile_field f (update_profile p e))
     = truthy (extracted_field f e) || truthy (profile_field f p)) /\
  (forall f : scalar_field,
     profile_field f (update_profile p e) = extracted_field f e \/
     profile_field f (update_profile p e) = profile_field f p) /\
  interests p `prefix_of` interests (update_profile p e).
Proof.
  split; [apply truthy_update_profile|]. split; [|apply update_profile_interests_prefix].
  intros f. rewrite update_profile_scalar.
  destruct (truthy (extracted_field f e)); [by left|by right].
Qed.

Lemma b2z_nonempty_app (l k : list pystr) :
  Z.b2z (bool_decide (l ≠ [])) <= Z.b2z (bool_decide (l ++ k ≠ [])).
Proof.
  destruct l as [|x l]; simpl.
  - destruct (bool_decide (k ≠ [])); simpl; lia.
  - lia.
Qed.

Lemma required_info_count_mono (p : UserProfile) (e : ProfileInfo) :
  required_info_count p <= required_info_count (update_profile p e).
Proof.
  unfold required_info_count.
  pose proof (truthy_update_profile p e TravelDates) as H1.
  pose proof (truthy_update_profile p e Duration) as H2.
  pose proof (truthy_update_profile p e GroupType) as H3.
  pose proof (truthy_update_profile p e Budget) as H4.
  pose proof (truthy_update_profile p e TravelRegion) as H5.
  simpl in H1, H2, H3, H4, H5. rewrite H1, H2, H3, H4, H5.
  destruct (update_profile_interests_prefix p e) as [k ->].
  pose proof (b2z_nonempty_app (interests p) k) as Hi.
  destruct (truthy (info_travel_dates e)), (truthy (travel_dates p)),
    (truthy (info_duration e)), (truthy (duration p)),
    (truthy (info_group_type e)), (truthy (group_type p)),
    (truthy (info_budget e)), (truthy (budget p)),
    (truthy (info_travel_region e)), (truthy (travel_region p)); simpl; lia.
Qed.

Lemma is_profile_sufficient_update (p : UserProfile) (e : ProfileInfo) :
  is_profile_sufficient p = true -> is_profile_sufficient (update_profile p e) = true.
Proof.
  intros Hp. pose proof (required_info_count_mono p e) as Hmono.
  unfold is_profile_sufficient in *.
  apply Z.geb_le. apply Z.geb_le in Hp. lia.
Qed.

(** X2: the number of fields the gate counts never falls in a merge, so a
    profile that was sufficient stays sufficient whatever is merged into
    it. *)
Theorem is_profile_sufficient_stable (p : UserProfile) (e : ProfileInfo) :
  is_profile_sufficient p = true ->
  required_info_count p <= required_info_count (update_profile p e) /\
  is_profile_sufficient (update_profile p e) = true.
Proof.
  intros Hp. pose proof (required_info_count_mono p e) as Hmono.
  split; [done|]. unfold is_profile_sufficient in *.
  apply Z.geb_le. apply Z.geb_le in Hp. lia.
Qed.

Lemma is_profile_sufficient_stable_witness :
  let p := {| travel_dates := None; duration := Some (txt "2박3일");
              group_type := Some (txt "커플"); interests := [txt "맛집"];
              budget := None; travel_region := None |} in
  let e := {| info_travel_dates := None; info_duration := Some (txt "");
              info_group_type := None; info_interests := Some [txt "힐링"];
              info_budget := None; info_travel_region := Some (txt "서귀포") |} in
  required_info_count p <= required_info_count (update_profile p e) /\
  is_profile_sufficient (update_profile p e) = true.
Proof.
  intros p e. apply (is_profile_sufficient_stable p e). reflexivity.
Defined.

(** X3: an extraction that brought nothing (every text missing, null or
    empty, and no tag) leaves the profile exactly as it was; this is the
    case of the [{}] returned for an answer that does not parse. *)
Theorem update_profile_nothing_extracted (p : UserProfile) (e : ProfileInfo) :
  (forall f : scalar_field, truthy (extracted_field f e) = false) ->
  extracted_tags e = [] ->
  update_profile p e = p.
Proof.
  intros Hnone Htags. apply profile_ext.
  - intros f. by rewrite update_profile_scalar, Hnone.
  - by rewrite update_profile_interests, Htags.
Qed.

Lemma update_profile_nothing_extracted_witness :
  update_profile (only_duration (txt "2박3일")) empty_info
  = only_duration (txt "2박3일").
Proof.
  apply (update_profile_nothing_extracted (only_duration (txt "2박3일")) empty_info).
  - intros []; reflexivity.
  - reflexivity.
Defined.

(** X4: the tag list stays a set: when no tag occurs twice in the
    profile, none occurs twice after a merge, even if the extraction
    lists a tag twice or lists tags the profile already has. *)
Theorem update_profile_keeps_tags_distinct (p : UserProfile) (e : ProfileInfo) :
  NoDup (interests p) -> NoDup (interests (update_profile p e)).
Proof.
  intros Hp. rewrite update_profile_interests, append_new_first_seen.
  apply NoDup_app. split; [done|]. split; [|apply NoDup_first_seen].
  intros t Ht Hin. apply elem_of_first_seen, list_elem_of_filter in Hin. tauto.
Qed.

Lemma update_profile_keeps_tags_distinct_witness :
  NoDup (interests
           (update_profile
              {| travel_dates := None; duration := None; group_type := None;
                 interests := [txt "맛집"]; budget := None; travel_region := None |}
              {| info_travel_dates := None; info_duration := None;
                 info_group_type := None;
                 info_interests := Some [txt "힐링"; txt "맛집"; txt "힐링"];
                 info_budget := None; info_travel_region := None |})).
Proof.
  apply update_profile_keeps_tags_distinct. simpl.
  apply NoDup_cons. split; [apply not_elem_of_nil|apply NoDup_nil_2].
Defined.

(** ** DemandPlanner: bounds and the day count *)

Lemma mk_counts_lookup (h t f e : Z) (c : string) (n : Z) :
  mk_counts h t f e !! c = Some n ->
  (c = "hotel"%string /\ n = h) \/ (c = "tour"%string /\ n = t) \/
  (c = "food"%string /\ n = f) \/ (c = "event"%string /\ n = e).
Proof.
  unfold mk_counts. rewrite !lookup_insert_Some, lookup_singleton_Some.
  intuition (subst; auto).
Qed.

Lemma calculate_search_counts_shape `{Unicode} (d : option pystr) :
  exists h t f : Z,
    calculate_search_counts d = mk_counts h t f 3 /\
    3 <= h <= 5 /\ 4 <= t <= 18 /\ 3 <= f <= 16.
Proof.
  unfold calculate_search_counts.
  destruct (negb (truthy d)); [exists 3, 8, 6; split; [done|lia]|].
  destruct (counts_for_days_cases (infer_days (default [] d)))
    as [[_ ->]|[[_ ->]|[[_ ->]|[[_ ->]|[[_ ->]|[_ ->]]]]]];
    eexists _, _, _; (split; [reflexivity|lia]).
Qed.

Lemma calculate_search_counts_lookup `{Unicode} (d : option pystr) :
  (forall c : string, c ∈ categories <-> is_Some (calculate_search_counts d !! c)) /\
  (forall (c : string) (n : Z),
     calculate_search_counts d !! c = Some n -> 3 <= n <= 18).
Proof.
  destruct (calculate_search_counts_shape d) as (h & t & f & -> & Hh & Ht & Hf).
  split.
  - intros c. unfold categories. split.
    + rewrite !elem_of_cons, elem_of_nil.
      intros [->|[->|[->|[->|[]]]]]; by eexists.
    + intros [n Hn]. apply mk_counts_lookup in Hn.
      rewrite !elem_of_cons. intuition.
  - intros c n Hn. apply mk_counts_lookup in Hn. intuition lia.
Qed.


Lemma fold_left_max_spec (l : list Z) (a : Z) :
  fold_left Z.max l a ∈ a :: l /\ forall x, x ∈ a :: l -> x <= fold_left Z.max l a.
Proof.
  revert a. induction l as [|y l IH]; intros a; simpl.
  - split; [by left|]. intros x Hx. apply list_elem_of_singleton in Hx. lia.
  - destruct (IH (Z.max a y)) as [Hin Hub]. split.
    + apply elem_of_cons in Hin as [Heq|Hin]; [|by do 2 right].
      rewrite Heq. destruct (Z.max_spec a y) as [[_ ->]|[_ ->]];
        [right; left|left]; done.
    + intros x Hx. apply elem_of_cons in Hx as [->|Hx].
      * specialize (Hub (Z.max a y)). etrans; [|apply Hub; by left]. lia.
      * apply elem_of_cons in Hx as [->|Hx].
        -- specialize (Hub (Z.max a y)). etrans; [|apply Hub; by left]. lia.
        -- apply Hub. by right.
Qed.

(** X6: when the duration text holds a number, the inferred day count is
    the largest number of the text: it is one of them and none is
    larger. *)
Theorem infer_days_is_largest_number `{Unicode} (t : pystr) :
  numbers_of t <> [] ->
  infer_days t ∈ numbers_of t /\
  forall n : Z, n ∈ numbers_of t -> n <= infer_days t.
Proof.
  unfold numbers_of, infer_days. intros Hne.
  destruct (findall_digits (lower t)) as [|num numbers]; [done|].
  simpl. apply fold_left_max_spec.
Qed.

Lemma infer_days_is_largest_number_witness :
  infer_days (txt "2박3일") ∈ numbers_of (txt "2박3일") /\
  forall n : Z, n ∈ numbers_of (txt "2박3일") -> n <= infer_days (txt "2박3일").
Proof.
  apply (@infer_days_is_largest_number ascii_unicode (txt "2박3일")).
  vm_compute. discriminate.
Defined.

Lemma findall_digits_from_nil `{Unicode} (cur s : pystr) :
  findall_digits_from cur s = [] ->
  cur = [] /\ Forall (fun c => is_decimal c = false) s.
Proof.
  revert cur. induction s as [|c s IH]; intros cur Hnil; simpl in Hnil.
  - destruct cur; [done|discriminate].
  - destruct (is_decimal c) eqn:Hc.
    + apply IH in Hnil as [? _]. discriminate.
    + destruct cur; [|discriminate].
      apply IH in Hnil as [_ Hs]. split; [done|]. by constructor.
Qed.

Lemma starts_with_elem (w s : pystr) (c : N) :
  starts_with w s = true -> c ∈ w -> c ∈ s.
Proof.
  revert s. induction w as [|a w IH]; intros s Hw Hc.
  - by apply elem_of_nil in Hc.
  - destruct s as [|b s]; [discriminate|]. simpl in Hw.
    case_decide as Hab; [subst b|discriminate].
    apply elem_of_cons in Hc as [->|Hc]; [by left|].
    right. by apply IH.
Qed.

Lemma contains_elem (w s : pystr) (c : N) :
  contains w s = true -> c ∈ w -> c ∈ s.
Proof.
  induction s as [|b s IH]; intros Hw Hc.
  - simpl in Hw. rewrite orb_false_r in Hw. eapply starts_with_elem; eauto.
  - simpl in Hw. apply orb_true_iff in Hw as [Hw|Hw].
    + eapply starts_with_elem; eauto.
    + right. by apply IH.
Qed.

Lemma contains_digit_false `{Unicode} (w s : pystr) (c : N) :
  Forall (fun c => is_decimal c = false) s ->
  c ∈ w -> is_decimal c = true -> contains w s = false.
Proof.
  intros Hs Hc Hdec. destruct (contains w s) eqn:Hw; [|done].
  pose proof (contains_elem w s c Hw Hc) as Hin.
  rewrite Forall_forall in Hs. apply Hs in Hin. congruence.
Qed.

(** X7: the keywords ["1박"], ["2일"], ... of the text-based branch each
    hold a digit, and the branch is only reached by a text without
    digits; so, in any Unicode database that counts the ASCII digits 1 to
    5 as decimal, such a text is read as one day when it mentions
    ["당일"] or ["하루"] and as three days otherwise, and gets the first or
    the third bucket. *)
Theorem infer_days_without_digits `{Unicode} (t : pystr) :
  (forall c : N, (49 <= c <= 53)%N -> is_decimal c = true) ->
  findall_digits (lower t) = [] ->
  infer_days t = (if any_in [txt "당일"; txt "하루"] (lower t) then 1 else 3) /\
  (t <> [] ->
   calculate_search_counts (Some t)
   = if any_in [txt "당일"; txt "하루"] (lower t)
     then mk_counts 3 4 3 3 else mk_counts 4 8 7 3).
Proof.
  intros Hascii Hnone.
  assert (infer_days t = if any_in [txt "당일"; txt "하루"] (lower t) then 1 else 3)
    as Hdays.
  { unfold infer_days. rewrite Hnone. unfold days_by_keyword.
    apply findall_digits_from_nil in Hnone as [_ Hs].
    destruct (any_in [txt "당일"; txt "하루"] (lower t)); [done|].
    assert (forall (w : pystr) (c : N),
              c ∈ w -> (49 <= c <= 53)%N -> contains w (lower t) = false) as Hno.
    { intros w c Hc Hr. eapply contains_digit_false; eauto. }
    unfold any_in. simpl.
    rewrite (Hno (txt "1박") 49%N), (Hno (txt "2일") 50%N),
      (Hno (txt "2박") 50%N), (Hno (txt "3일") 51%N),
      (Hno (txt "3박") 51%N), (Hno (txt "4일") 52%N),
      (Hno (txt "4박") 52%N), (Hno (txt "5일") 53%N);
      try (vm_compute; left); try lia; reflexivity. }
  split; [done|]. intros Ht.
  rewrite calculate_search_counts_nonempty, Hdays by done.
  by destruct (any_in [txt "당일"; txt "하루"] (lower t)).
Qed.

Lemma infer_days_without_digits_witness :
  infer_days (txt "하루 코스") = 1 /\
  (txt "하루 코스" <> [] ->
   calculate_search_counts (Some (txt "하루 코스")) = mk_counts 3 4 3 3).
Proof.
  apply (@infer_days_without_digits ascii_unicode (txt "하루 코스")).
  - intros c [Hlo Hhi]. simpl.
    apply andb_true_iff. split; apply N.leb_le; lia.
  - reflexivity.
Defined.

(** ** RetrievalClient and BatchSplitter: sizes of requests and results *)

Lemma length_slice_to {A} (l : list A) (k : Z) :
  0 <= k -> Z.of_nat (length (slice_to l k)) <= k.
Proof.
  intros Hk. unfold slice_to.
  destruct (Z.leb_spec 0 k); [|lia]. rewrite length_take. lia.
Qed.

Lemma length_delivered (key : string) (o : outcome) (k : Z) :
  0 <= k -> Z.of_nat (length (delivered key o k)) <= k.
Proof.
  intros Hk. unfold delivered.
  destruct o as [r|e]; [|simpl; lia].
  destruct (json r); [by apply length_slice_to|simpl; lia].
Qed.

Lemma posts_app (tr1 tr2 : trace) : posts (tr1 ++ tr2) = posts tr1 ++ posts tr2.
Proof. apply omap_app. Qed.

(** One call of the retrieval client of [smart_chatbot.py]: it returns,
    it only adds events, between one and three of them are requests, each
    for the query and the count of the call, and it returns no more items
    than the count. *)
Lemma search_vector_db_run (srv : service) (q category : pystr) (k : Z) (tr : trace) :
  exists (l : list (gmap string pystr)) (new : trace),
    SmartChatbot.search_vector_db srv q category k tr = (Returned l, tr ++ new) /\
    (0 <= k -> Z.of_nat (length l) <= k) /\
    (1 <= length (posts new) <= 3)%nat /\
    Forall (fun r => query (body r) = q /\ top_k (body r) = k) (posts new).
Proof.
  destruct (smart_retry_contract srv q category k tr)
    as [[F ->]|[(F0 & F1 & ->)|(F0 & F1 & ->)]]; eexists _, _;
    (split; [reflexivity|]); (split; [intros Hk|]).
  - by apply length_delivered.
  - unfold posts. simpl. split; [lia|]. repeat constructor.
  - by apply length_delivered.
  - unfold posts. simpl. split; [lia|]. repeat constructor.
  - match goal with |- context [if fails ?o then _ else _] => destruct (fails o) end;
      [simpl; lia|by apply length_delivered].
  - unfold posts. simpl. split; [lia|]. repeat constructor.
Qed.

Lemma baseline_search_vector_db_run
    (srv : service) (g : option Timeout) (q category : pystr) (k : Z) (tr : trace) :
  let req := SingleChainBaseline.search_request (client_of g) q k in
  SingleChainBaseline.search_vector_db srv g q category k tr
  = (Returned (if fails (srv tr req) then [] else delivered "results" (srv tr req) k,
               Some (client_of g)),
     tr ++ [EvPost req]).
Proof.
  unfold SingleChainBaseline.search_vector_db. unfold_effects.
  destruct g as [client|]; simpl;
    match goal with |- context [srv tr ?r] => destruct (srv tr r) as [[s [b|]]|e] end;
    simpl; try destruct (s =? 200); reflexivity.
Qed.

(** X8: a retrieval never hands back more than was asked for: for a
    count [k >= 0] the clients of [smart_chatbot.py] and of the demo
    return at most [k] items, whatever the service lists in its answer,
    and so does the baseline's single request. *)
Theorem search_vector_db_at_most_top_k
    (srv : service) (q category : pystr) (k : Z) (tr : trace)
    (global_http_client : option Timeout) :
  0 <= k ->
  (exists l tr', SmartChatbot.search_vector_db srv q category k tr = (Returned l, tr') /\
                 Z.of_nat (length l) <= k) /\
  (exists l tr', DemoPersonalized.search_vector_db srv q category k tr = (Returned l, tr') /\
                 Z.of_nat (length l) <= k) /\
  (exists l g tr',
     SingleChainBaseline.search_vector_db srv global_http_client q category k tr
     = (Returned (l, g), tr') /\
     Z.of_nat (length l) <= k).
Proof.
  intros Hk.
  destruct (search_vector_db_run srv q category k tr) as (l & new & Hrun & Hlen & _).
  split; [|split].
  - eexists _, _. split; [exact Hrun|auto].
  - rewrite demo_search_vector_db_eq. eexists _, _. split; [exact Hrun|auto].
  - rewrite baseline_search_vector_db_run.
    eexists _, _, _. split; [reflexivity|].
    destruct (fails _); [simpl; lia|by apply length_delivered].
Qed.

Lemma search_vector_db_at_most_top_k_witness :
  exists l tr',
    SmartChatbot.search_vector_db steady_service (txt "제주 맛집 추천") (txt "food") 2 []
    = (Returned l, tr') /\
    Z.of_nat (length l) <= 2.
Proof.
  apply (search_vector_db_at_most_top_k steady_service (txt "제주 맛집 추천")
           (txt "food") 2 [] None).
  lia.
Defined.

Lemma batch_body_run (srv : service) (q category : pystr)
    (total_count batch_size batches_needed batch_num : Z)
    (all_results : list (gmap string pystr)) (tr : trace) :
  0 < batch_size ->
  Z.of_nat (length all_results) < total_count ->
  exists (c : ctl unit) (all_results' : list (gmap string pystr)) (new : trace),
    BatchSplitter.batch_body srv q category total_count batch_size batches_needed
      batch_num all_results tr = (Returned (c, all_results'), tr ++ new) /\
    Z.of_nat (length all_results') <= total_count /\
    (c = Continue -> Z.of_nat (length all_results') < total_count) /\
    (length (posts new) <= 3)%nat /\
    Forall (fun r => 1 <= top_k (body r) <= batch_size) (posts new).
Proof.
  intros Hbs Hlt. unfold BatchSplitter.batch_body, try_except.
  unfold mbind at 1, M_bind at 1.
  set (k := Z.min batch_size (total_count - Z.of_nat (length all_results))).
  assert (1 <= k <= batch_size) as Hk by lia.
  destruct (search_vector_db_run srv (BatchSplitter.batch_query q batch_num)
              (category ++ txt "_batch" ++ BatchSplitter.str_of_Z (batch_num + 1)) k tr)
    as (l & new & -> & Hlen & [_ Hposts] & Hreq).
  specialize (Hlen ltac:(lia)).
  set (all' := all_results ++ filter _ l).
  assert (Z.of_nat (length all') <= total_count) as Hall'.
  { subst all'. rewrite length_app.
    pose proof (length_filter
      (fun r => item_name r ∉ (list_to_set (item_name <$> all_results) : gset pystr)) l).
    lia. }
  assert (Forall (fun r => 1 <= top_k (body r) <= batch_size) (posts new)) as Hok.
  { eapply Forall_impl; [exact Hreq|]. intros r [_ ->]. exact Hk. }
  destruct (Z.geb_spec (Z.of_nat (length all')) total_count).
  { exists Break, all', new. by repeat split. }
  destruct (_ && _).
  { exists Break, all', new. by repeat split. }
  unfold_effects. destruct (batch_num <? batches_needed - 1).
  - exists Continue, all', (new ++ [EvSleep 2]).
    rewrite <- app_assoc. split; [done|].
    rewrite posts_app. simpl. rewrite app_nil_r. repeat split; [lia..|done|done].
  - exists Continue, all', new. repeat split; [lia..|done|done].
Qed.

Lemma batches_from_run (srv : service) (q category : pystr)
    (total_count batch_size batches_needed : Z) (rounds : nat) (batch_num : Z)
    (all_results : list (gmap string pystr)) (tr : trace) :
  0 < batch_size ->
  Z.of_nat (length all_results) < total_count ->
  exists (l : list (gmap string pystr)) (new : trace),
    BatchSplitter.batches_from srv q category total_count batch_size batches_needed
      rounds batch_num all_results tr = (Returned l, tr ++ new) /\
    Z.of_nat (length l) <= total_count /\
    (length (posts new) <= 3 * rounds)%nat /\
    Forall (fun r => 1 <= top_k (body r) <= batch_size) (posts new).
Proof.
  intros Hbs. revert batch_num all_results tr.
  induction rounds as [|rounds IH]; intros batch_num all_results tr Hlt.
  - exists all_results, []. rewrite app_nil_r. repeat split; [lia|simpl; lia|constructor].
  - simpl. unfold mbind, M_bind.
    destruct (batch_body_run srv q category total_count batch_size batches_needed
                batch_num all_results tr Hbs Hlt)
      as (c & all' & new & -> & Hle & Hcont & Hn & Hok).
    destruct c; simpl.
    + destruct (IH (batch_num + 1) all' (tr ++ new) (Hcont eq_refl))
        as (l & new' & -> & Hl & Hn' & Hok').
      exists l, (new ++ new'). rewrite <- app_assoc. split; [done|].
      rewrite posts_app, length_app. repeat split; [done|lia|].
      by apply Forall_app.
    + exists all', new. repeat split; [done|lia|done].
    + exists all', new. repeat split; [done|lia|done].
Qed.

(** X9: a request for more than twenty items with a positive batch size
    is served in batches: the call returns at most the requested total,
    every request it sends asks for at least one and at most [batch_size]
    items, and it sends at most three requests (one retrieval with its
    retries) for each of the [ceil(total_count / batch_size)] batches. *)
Theorem search_with_batching_batches
    (srv : service) (q category : pystr) (total_count batch_size : Z) (tr : trace) :
  20 < total_count -> 0 < batch_size ->
  exists (l : list (gmap string pystr)) (new : trace),
    BatchSplitter.search_with_batching srv q category total_count batch_size tr
    = (Returned l, tr ++ new) /\
    Z.of_nat (length l) <= total_count /\
    Forall (fun r => 1 <= top_k (body r) <= batch_size) (posts new) /\
    Z.of_nat (length (posts new)) <= 3 * ((total_count + batch_size - 1) / batch_size).
Proof.
  intros Htotal Hbs. unfold BatchSplitter.search_with_batching.
  destruct (Z.leb_spec total_count 20); [lia|].
  unfold BatchSplitter.floordiv. destruct (Z.eqb_spec batch_size 0); [lia|].
  unfold mbind at 1, M_bind at 1. unfold mret at 1, M_ret at 1.
  unfold mbind, M_bind.
  set (needed := (total_count + batch_size - 1) / batch_size).
  destruct (batches_from_run srv q category total_count batch_size needed
              (Z.to_nat needed) 0 [] tr Hbs ltac:(simpl; lia))
    as (l & new & -> & Hl & Hn & Hok).
  exists (slice_to l total_count), new. split; [reflexivity|].
  split; [apply length_slice_to; lia|]. split; [done|].
  assert (0 <= needed) by (apply Z.div_pos; lia). lia.
Qed.

Lemma search_with_batching_batches_witness :
  exists (l : list (gmap string pystr)) (new : trace),
    BatchSplitter.search_with_batching steady_service (txt "제주 맛집 추천")
      (txt "food") 21 3 []
    = (Returned l, [] ++ new) /\
    Z.of_nat (length l) <= 21 /\
    Forall (fun r => 1 <= top_k (body r) <= 3) (posts new) /\
    Z.of_nat (length (posts new)) <= 3 * ((21 + 3 - 1) / 3).
Proof.
  apply (search_with_batching_batches steady_service (txt "제주 맛집 추천")
           (txt "food") 21 3 []); lia.
Defined.

Lemma replace_from_absent (old new s : pystr) :
  contains old s = false -> BatchSplitter.replace_from 0 old new s = s.
Proof.
  induction s as [|c s IH]; intros Habs; [reflexivity|].
  simpl in Habs. apply orb_false_elim in Habs as [Hhead Htail].
  cbn [BatchSplitter.replace_from]. rewrite Hhead. f_equal. by apply IH.
Qed.

(** X10: the rewording of the query for the second and later batches
    only acts on the word ["추천"]: a query without that word is sent
    unchanged in every batch. *)
Theorem batch_query_without_keyword (q : pystr) (batch_num : Z) :
  contains (txt "추천") q = false ->
  BatchSplitter.batch_query q batch_num = q.
Proof.
  intros Habs. unfold BatchSplitter.batch_query, BatchSplitter.replace.
  destruct (batch_num =? 0); [done|].
  destruct (batch_num =? 1); by apply replace_from_absent.
Qed.

Lemma batch_query_without_keyword_witness :
  BatchSplitter.batch_query (txt "제주 오션뷰 호텔") 2 = txt "제주 오션뷰 호텔".
Proof.
  apply (batch_query_without_keyword (txt "제주 오션뷰 호텔") 2). reflexivity.
Defined.

(** ** The graph of [smart_chatbot.py] *)

Lemma returns_appends {A} (m : M A) : returns m -> appends m.
Proof. intros Hm tr. destruct (Hm tr) as (a & new & ->). by eexists _, _. Qed.

Lemma appends_ret {A} (a : A) : appends (mret a : M A).
Proof. intros tr. exists (Returned a), []. by rewrite app_nil_r. Qed.

Lemma returns_ret {A} (a : A) : returns (mret a : M A).
Proof. intros tr. exists a, []. by rewrite app_nil_r. Qed.

Lemma appends_await {A} (r : result A) : appends (SmartGraph.await r).
Proof. intros tr. exists r, []. by rewrite app_nil_r. Qed.

Lemma returns_sleep (secs : Z) : returns (sleep secs).
Proof. intros tr. by exists tt, [EvSleep secs]. Qed.

Lemma appends_bind {A B} (m : M A) (f : A -> M B) :
  appends m -> (forall a, appends (f a)) -> appends (m ≫= f).
Proof.
  intros Hm Hf tr. unfold mbind, M_bind.
  destruct (Hm tr) as ([a|e] & new & ->).
  - destruct (Hf a (tr ++ new)) as (r & new' & ->).
    exists r, (new ++ new'). by rewrite app_assoc.
  - by eexists _, _.
Qed.

Lemma returns_bind {A B} (m : M A) (f : A -> M B) :
  returns m -> (forall a, returns (f a)) -> returns (m ≫= f).
Proof.
  intros Hm Hf tr. unfold mbind, M_bind.
  destruct (Hm tr) as (a & new & ->).
  destruct (Hf a (tr ++ new)) as (b & new' & ->).
  exists b, (new ++ new'). by rewrite app_assoc.
Qed.

Lemma returns_try_except {A} (body : M A) (handler : exception -> M A) :
  appends body -> (forall e, returns (handler e)) -> returns (try_except body handler).
Proof.
  intros Hb Hh tr. unfold try_except.
  destruct (Hb tr) as ([a|e] & new & ->).
  - by eexists _, _.
  - destruct (Hh e (tr ++ new)) as (a & new' & ->).
    exists a, (new ++ new'). by rewrite app_assoc.
Qed.

Lemma returns_search_vector_db (srv : service) (q category : pystr) (k : Z) :
  returns (SmartChatbot.search_vector_db srv q category k).
Proof.
  intros tr. destruct (search_vector_db_run srv q category k tr) as (l & new & -> & _).
  by eexists _, _.
Qed.

Lemma search_with_batching_direct (srv : service) (q category : pystr)
    (total_count batch_size : Z) :
  total_count <= 20 ->
  BatchSplitter.search_with_batching srv q category total_count batch_size
  = SmartChatbot.search_vector_db srv q category total_count.
Proof.
  intros Hle. unfold BatchSplitter.search_with_batching.
  by destruct (Z.leb_spec total_count 20); [|lia].
Qed.

Lemma planned_count_small `{Unicode} (d : option pystr) (category : string) :
  default 5 (calculate_search_counts d !! category) <= 20.
Proof.
  destruct (calculate_search_counts d !! category) as [n|] eqn:Hn; simpl; [|lia].
  apply calculate_search_counts_lookup in Hn. lia.
Qed.

Lemma search_category_direct (srv : service) (search_counts : gmap string Z)
    (results : gmap string (list (gmap string pystr))) (category : string) (q : pystr)
    (tr : trace) :
  default 5 (search_counts !! category) <= 20 ->
  SmartGraph.search_category srv search_counts results category q tr
  = (found ← SmartChatbot.search_vector_db srv q (txt category)
               (default 5 (search_counts !! category));
     sleep 1 ;;
     mret (<[category := found]> results)) tr.
Proof.
  intros Hle. unfold SmartGraph.search_category.
  rewrite search_with_batching_direct by done.
  unfold try_except, mbind, M_bind, mret, M_ret.
  destruct (returns_search_vector_db srv q (txt category)
              (default 5 (search_counts !! category)) tr) as (l & new & ->).
  reflexivity.
Qed.

(** X11: the search node of [smart_chatbot.py], once its four queries are
    generated, is a plain sequence: hotel, a second of pause, tour, a
    second, five seconds, food, a second, event, a second.  The counts
    the planner gives never exceed twenty, so each category is served by
    one call of the retrieval client (the batch splitter never splits
    here), no search can raise, and each category's list is stored under
    its own key. *)
Theorem parallel_search_all_sequence `{Unicode}
    (srv : service) (generate_query : string -> UserProfile -> result pystr)
    (state : GraphState) (hotel_query tour_query food_query event_query : pystr)
    (tr : trace) :
  generate_query "hotel"%string (user_profile state) = Returned hotel_query ->
  generate_query "tour"%string (user_profile state) = Returned tour_query ->
  generate_query "food"%string (user_profile state) = Returned food_query ->
  generate_query "event"%string (user_profile state) = Returned event_query ->
  let count := fun category : string =>
    default 5 (calculate_search_counts (duration (user_profile state)) !! category) in
  SmartGraph.parallel_search_all srv generate_query state tr
  = (h ← SmartChatbot.search_vector_db srv hotel_query (txt "hotel") (count "hotel"%string);
     sleep 1 ;;
     t ← SmartChatbot.search_vector_db srv tour_query (txt "tour") (count "tour"%string);
     sleep 1 ;;
     sleep 5 ;;
     f ← SmartChatbot.search_vector_db srv food_query (txt "food") (count "food"%string);
     sleep 1 ;;
     e ← SmartChatbot.search_vector_db srv event_query (txt "event") (count "event"%string);
     sleep 1 ;;
     mret (SmartGraph.set_results state h t f e)) tr.
Proof.
  intros Hh Ht Hf He count. unfold SmartGraph.parallel_search_all.
  rewrite Hh, Ht, Hf, He. unfold SmartGraph.await.
  unfold mbind at 1 2 3 4, M_bind at 1 2 3 4. simpl take. simpl drop.
  cbn [SmartGraph.search_categories].
  assert (forall c, count c <= 20) as Hsmall
    by (intros c; apply planned_count_small).
  unfold mbind, M_bind, mret, M_ret, sleep.
  do 4 (match goal with
        | |- context [SmartGraph.search_category srv ?counts ?r ?c ?q ?t] =>
            rewrite (search_category_direct srv counts r c q t (Hsmall c));
            unfold mbind, M_bind, mret, M_ret, sleep;
            change (default 5 (counts !! c)) with (count c);
            destruct (returns_search_vector_db srv q (txt c) (count c) t)
              as (? & ? & ->);
            cbv beta iota
        end).
  reflexivity.
Qed.

Lemma parallel_search_all_sequence_witness :
  let count := fun category : string =>
    default 5 (calculate_search_counts (duration (user_profile ready_state)) !! category) in
  SmartGraph.parallel_search_all failing_service (fixed_query "제주 추천") ready_state []
  = (h ← SmartChatbot.search_vector_db failing_service (txt "제주 추천") (txt "hotel")
           (count "hotel"%string);
     sleep 1 ;;
     t ← SmartChatbot.search_vector_db failing_service (txt "제주 추천") (txt "tour")
           (count "tour"%string);
     sleep 1 ;;
     sleep 5 ;;
     f ← SmartChatbot.search_vector_db failing_service (txt "제주 추천") (txt "food")
           (count "food"%string);
     sleep 1 ;;
     e ← SmartChatbot.search_vector_db failing_service (txt "제주 추천") (txt "event")
           (count "event"%string);
     sleep 1 ;;
     mret (SmartGraph.set_results ready_state h t f e)) [].
Proof.
  apply (@parallel_search_all_sequence ascii_unicode failing_service
           (fixed_query "제주 추천") ready_state
           (txt "제주 추천") (txt "제주 추천") (txt "제주 추천") (txt "제주 추천") []);
    reflexivity.
Defined.

(** The search node either stops at the first query generation that
    raises, before any request, or returns the state with the four lists
    filled in. *)
Lemma parallel_search_all_run `{Unicode}
    (srv : service) (generate_query : string -> UserProfile -> result pystr)
    (state : GraphState) (tr : trace) :
  (exists e, SmartGraph.parallel_search_all srv generate_query state tr
             = (Propagated e, tr) /\
             exists c, c ∈ categories /\
                       generate_query c (user_profile state) = Propagated e) \/
  (exists h t f e new,
     SmartGraph.parallel_search_all srv generate_query state tr
     = (Returned (SmartGraph.set_results state h t f e), tr ++ new) /\
     forall c, c ∈ categories ->
               exists q, generate_query c (user_profile state) = Returned q).
Proof.
  destruct (generate_query "hotel"%string (user_profile state)) as [hq|x] eqn:Hh;
    [|left; exists x; split;
      [unfold SmartGraph.parallel_search_all; by rewrite Hh
      |exists "hotel"%string; split; [unfold categories; set_solver|done]]].
  destruct (generate_query "tour"%string (user_profile state)) as [tq|x] eqn:Ht;
    [|left; exists x; split;
      [unfold SmartGraph.parallel_search_all; by rewrite Hh, Ht
      |exists "tour"%string; split; [unfold categories; set_solver|done]]].
  destruct (generate_query "food"%string (user_profile state)) as [fq|x] eqn:Hf;
    [|left; exists x; split;
      [unfold SmartGraph.parallel_search_all; by rewrite Hh, Ht, Hf
      |exists "food"%string; split; [unfold categories; set_solver|done]]].
  destruct (generate_query "event"%string (user_profile state)) as [eq|x] eqn:He;
    [|left; exists x; split;
      [unfold SmartGraph.parallel_search_all; by rewrite Hh, Ht, Hf, He
      |exists "event"%string; split; [unfold categories; set_solver|done]]].
  right. unfold SmartGraph.parallel_search_all.
  rewrite Hh, Ht, Hf, He. unfold SmartGraph.await.
  unfold mbind at 1 2 3 4, M_bind at 1 2 3 4. simpl take. simpl drop.
  cbn [SmartGraph.search_categories].
  unfold mbind, M_bind, mret, M_ret, sleep.
  do 4 (match goal with
        | |- context [SmartGraph.search_category srv ?counts ?r ?c ?q ?t] =>
            rewrite (search_category_direct srv counts r c q t
                       (planned_count_small _ c));
            unfold mbind, M_bind, mret, M_ret, sleep;
            destruct (returns_search_vector_db srv q (txt c)
                        (default 5 (counts !! c)) t) as (? & ? & ->);
            cbv beta iota
        end).
  eexists _, _, _, _, _. split.
  - rewrite <- !app_assoc. reflexivity.
  - intros c. unfold categories. rewrite !elem_of_cons, elem_of_nil.
    intros [->|[->|[->|[->|[]]]]]; by eexists.
Qed.

Lemma profile_collector_node_profile
    (extract : pystr -> UserProfile -> ProfileInfo)
    (respond : UserProfile -> pystr -> list (string * pystr) -> pystr)
    (state : GraphState) :
  let state' := profile_collector_node extract respond state in
  user_profile state' = merged_profile extract state /\
  profile_ready state' = is_profile_sufficient (merged_profile extract state) /\
  user_message state' = user_message state.
Proof.
  unfold profile_collector_node, merged_profile. cbv zeta.
  by destruct (is_profile_sufficient _).
Qed.

Lemma turn_state_message (stored : option GraphState) (message : pystr) :
  user_message (turn_state stored message) = message.
Proof. by destruct stored. Qed.

(** X12: a turn that leaves the profile short of the gate sends nothing
    to the retrieval service and does not sleep: [chat] answers with the
    follow-up question generated for the merged profile and returns that
    profile. *)
Theorem chat_collecting_turn `{Unicode}
    (srv : service) (extract : pystr -> UserProfile -> ProfileInfo)
    (respond : UserProfile -> pystr -> list (string * pystr) -> pystr)
    (generate_query : string -> UserProfile -> result pystr)
    (response_llm : GraphState -> result pystr)
    (stored : option GraphState) (message : pystr) (tr : trace) :
  let state := turn_state stored message in
  is_profile_sufficient (merged_profile extract state) = false ->
  SmartGraph.chat srv extract respond generate_query response_llm stored message tr
  = (Returned
       (respond (merged_profile extract state) message
          (conversation_history state ++ [("user"%string, message)]),
        merged_profile extract state),
     tr).
Proof.
  intros state Hshort. unfold SmartGraph.chat, SmartGraph.invoke_graph.
  fold (turn_state stored message). fold state.
  unfold try_except, mbind, M_bind, mret, M_ret.
  unfold should_continue_to_agents, profile_collector_node.
  fold (merged_profile extract state). rewrite Hshort. simpl.
  unfold state at 2 4. by rewrite turn_state_message.
Qed.

Lemma chat_collecting_turn_witness :
  SmartGraph.chat failing_service extract_nothing (fun _ _ _ => txt "언제 가세요?")
    (fixed_query "제주 추천") (fun _ => Returned (txt "일정"))
    None (txt "안녕") []
  = (Returned (txt "언제 가세요?", empty_profile), []).
Proof.
  apply (@chat_collecting_turn ascii_unicode failing_service extract_nothing
           (fun _ _ _ => txt "언제 가세요?") (fixed_query "제주 추천")
           (fun _ => Returned (txt "일정")) None (txt "안녕") []).
  reflexivity.
Defined.

(** X13: when the profile passes the gate but the generation of a search
    query raises, the turn ends before any request is sent: [chat]
    answers with its fixed apology and returns an empty profile, not the
    profile of the session. *)
Theorem chat_query_generation_fails `{Unicode}
    (srv : service) (extract : pystr -> UserProfile -> ProfileInfo)
    (respond : UserProfile -> pystr -> list (string * pystr) -> pystr)
    (generate_query : string -> UserProfile -> result pystr)
    (response_llm : GraphState -> result pystr)
    (stored : option GraphState) (message : pystr) (tr : trace)
    (category : string) (e : exception) :
  let state := turn_state stored message in
  is_profile_sufficient (merged_profile extract state) = true ->
  category ∈ categories ->
  generate_query category (merged_profile extract state) = Propagated e ->
  SmartGraph.chat srv extract respond generate_query response_llm stored message tr
  = (Returned
       (txt "죄송합니다. 일시적인 오류가 발생했습니다. 다시 시도해주세요.",
        empty_profile),
     tr).
Proof.
  intros state Hready Hcat Hfail. unfold SmartGraph.chat, SmartGraph.invoke_graph.
  fold (turn_state stored message). fold state.
  destruct (profile_collector_node_profile extract respond state)
    as (Hprofile & Hflag & _).
  set (state1 := profile_collector_node extract respond state) in *.
  unfold should_continue_to_agents. rewrite Hflag, Hready. simpl.
  unfold try_except. unfold mbind at 1 2, M_bind at 1 2.
  destruct (parallel_search_all_run srv generate_query state1 tr)
    as [(x & -> & _)|(h & t & f & ev & new & _ & Hall)]; [reflexivity|].
  destruct (Hall category Hcat) as [q Hq]. rewrite Hprofile in Hq. congruence.
Qed.

Lemma chat_query_generation_fails_witness :
  SmartGraph.chat failing_service extract_nothing (fun _ _ _ => txt "언제 가세요?")
    (fun _ _ => Propagated OtherException) (fun _ => Returned (txt "일정"))
    (Some ready_state) (txt "일정 짜줘") []
  = (Returned
       (txt "죄송합니다. 일시적인 오류가 발생했습니다. 다시 시도해주세요.",
        empty_profile),
     []).
Proof.
  apply (@chat_query_generation_fails ascii_unicode failing_service extract_nothing
           (fun _ _ _ => txt "언제 가세요?") (fun _ _ => Propagated OtherException)
           (fun _ => Returned (txt "일정")) (Some ready_state) (txt "일정 짜줘") []
           "hotel"%string OtherException).
  - reflexivity.
  - unfold categories. set_solver.
  - reflexivity.
Defined.

Lemma response_generator_node_run (response_llm : GraphState -> result pystr)
    (state : GraphState) (tr : trace) :
  SmartGraph.response_generator_node response_llm state tr
  = (Returned
       match response_llm state with
       | Returned final_response =>
           SmartGraph.set_response state final_response
             (conversation_history state ++ [("assistant"%string, final_response)])
       | Propagated _ =>
           SmartGraph.set_response state
             (txt "죄송합니다. 일정 생성 중 오류가 발생했습니다.")
             (conversation_history state)
       end,
     tr).
Proof.
  unfold SmartGraph.response_generator_node, try_except, SmartGraph.await,
    mbind, M_bind, mret, M_ret.
  by destruct (response_llm state).
Qed.

(** What one run of the graph leaves behind, in each of its three
    courses. *)
Lemma invoke_graph_run `{Unicode}
    (srv : service) (extract : pystr -> UserProfile -> ProfileInfo)
    (respond : UserProfile -> pystr -> list (string * pystr) -> pystr)
    (generate_query : string -> UserProfile -> result pystr)
    (response_llm : GraphState -> result pystr)
    (state : GraphState) (tr : trace) :
  let state1 := profile_collector_node extract respond state in
  (profile_ready state1 = false /\
   SmartGraph.invoke_graph srv extract respond generate_query response_llm state tr
   = (Returned state1, tr)) \/
  (profile_ready state1 = true /\
   exists e, SmartGraph.invoke_graph srv extract respond generate_query response_llm
               state tr = (Propagated e, tr)) \/
  (profile_ready state1 = true /\
   exists h t f e new,
     let state2 := SmartGraph.set_results state1 h t f e in
     SmartGraph.invoke_graph srv extract respond generate_query response_llm state tr
     = (Returned
          match response_llm state2 with
          | Returned final_response =>
              SmartGraph.set_response state2 final_response
                (conversation_history state2 ++ [("assistant"%string, final_response)])
          | Propagated _ =>
              SmartGraph.set_response state2
                (txt "죄송합니다. 일정 생성 중 오류가 발생했습니다.")
                (conversation_history state2)
          end,
        tr ++ new)).
Proof.
  intros state1. unfold SmartGraph.invoke_graph. fold state1.
  unfold should_continue_to_agents.
  destruct (profile_ready state1) eqn:Hready; simpl; [right|by left].
  unfold mbind, M_bind.
  destruct (parallel_search_all_run srv generate_query state1 tr)
    as [(x & -> & _)|(h & t & f & ev & new & -> & _)].
  - left. split; [done|]. by exists x.
  - right. split; [done|]. exists h, t, f, ev, new. cbv zeta.
    by rewrite response_generator_node_run.
Qed.

(** X14: every turn of [chat] returns a response and a profile; it never
    raises, whatever the retrieval service and the language models do,
    and it only adds to the events before it. *)
Theorem chat_always_answers `{Unicode}
    (srv : service) (extract : pystr -> UserProfile -> ProfileInfo)
    (respond : UserProfile -> pystr -> list (string * pystr) -> pystr)
    (generate_query : string -> UserProfile -> result pystr)
    (response_llm : GraphState -> result pystr)
    (stored : option GraphState) (message : pystr) :
  returns (SmartGraph.chat srv extract respond generate_query response_llm
             stored message).
Proof.
  intros tr. unfold SmartGraph.chat. fold (turn_state stored message).
  unfold try_except. unfold mbind at 1, M_bind at 1.
  destruct (invoke_graph_run srv extract respond generate_query response_llm
              (turn_state stored message) tr)
    as [[_ ->]|[[_ [e ->]]|[_ (h & t & f & e & new & ->)]]].
  - eexists _, []. by rewrite app_nil_r.
  - eexists _, []. by rewrite app_nil_r.
  - by eexists _, new.
Qed.

(** X15: a turn that ends with the profile ready leaves a state from
    which every later turn passes the gate again, whatever the later
    messages are and whatever is extracted from them: the search and
    response nodes keep the profile, and a merge never lowers the
    count. *)
Theorem invoke_graph_stays_ready `{Unicode}
    (srv : service) (extract : pystr -> UserProfile -> ProfileInfo)
    (respond : UserProfile -> pystr -> list (string * pystr) -> pystr)
    (generate_query : string -> UserProfile -> result pystr)
    (response_llm : GraphState -> result pystr)
    (state state' : GraphState) (tr tr' : trace) :
  SmartGraph.invoke_graph srv extract respond generate_query response_llm state tr
  = (Returned state', tr') ->
  profile_ready state' = true ->
  user_profile state' = merged_profile extract state /\
  forall (extract' : pystr -> UserProfile -> ProfileInfo) (message : pystr),
    let next :=
      profile_collector_node extract' respond
        (SmartGraph.set_user_message state' message) in
    profile_ready next = true /\
    should_continue_to_agents next = "parallel_search"%string.
Proof.
  intros Hrun Hready.
  destruct (profile_collector_node_profile extract respond state)
    as (Hprofile & Hflag & _).
  assert (user_profile state' = merged_profile extract state /\
          is_profile_sufficient (user_profile state') = true) as [Hp Hsuff].
  { destruct (invoke_graph_run srv extract respond generate_query response_llm state tr)
      as [[Hf Heq]|[[_ [e Heq]]|[Ht (h & t & f & e & new & Heq)]]];
      rewrite Heq in Hrun.
    - injection Hrun as <- _. congruence.
    - discriminate.
    - injection Hrun as <- _. rewrite Ht in Hflag.
      destruct (response_llm _); simpl; by rewrite Hprofile. }
  split; [done|]. intros extract' message next.
  destruct (profile_collector_node_profile extract' respond
              (SmartGraph.set_user_message state' message)) as (_ & Hflag' & _).
  fold next in Hflag'. unfold merged_profile in Hflag'. simpl in Hflag'.
  assert (profile_ready next = true) as Hnext.
  { rewrite Hflag'. by apply is_profile_sufficient_update. }
  split; [done|]. unfold should_continue_to_agents. by rewrite Hnext.
Qed.

Lemma invoke_graph_stays_ready_witness :
  user_profile
    (SmartGraph.set_response (SmartGraph.set_results
       (profile_collector_node extract_nothing (fun _ _ _ => txt "언제 가세요?") ready_state)
       [] [] [] []) (txt "일정")
       [("user"%string, txt "일정 짜줘"); ("assistant"%string, txt "일정")])
  = merged_profile extract_nothing ready_state /\
  forall (extract' : pystr -> UserProfile -> ProfileInfo) (message : pystr),
    let next :=
      profile_collector_node extract' (fun _ _ _ => txt "언제 가세요?")
        (SmartGraph.set_user_message
           (SmartGraph.set_response (SmartGraph.set_results
              (profile_collector_node extract_nothing
                 (fun _ _ _ => txt "언제 가세요?") ready_state)
              [] [] [] []) (txt "일정")
              [("user"%string, txt "일정 짜줘"); ("assistant"%string, txt "일정")])
           message) in
    profile_ready next = true /\
    should_continue_to_agents next = "parallel_search"%string.
Proof.
  apply (@invoke_graph_stays_ready ascii_unicode failing_service extract_nothing
           (fun _ _ _ => txt "언제 가세요?") (fixed_query "제주 추천")
           (fun _ => Returned (txt "일정")) ready_state _
           [] (snd (SmartGraph.invoke_graph failing_service extract_nothing
                      (fun _ _ _ => txt "언제 가세요?") (fixed_query "제주 추천")
                      (fun _ => Returned (txt "일정")) ready_state []))).
  - vm_compute. reflexivity.
  - reflexivity.
Defined.

(** ** Sequential dispatch of the baseline *)

Lemma client_of_get_global_client (g : option Timeout) :
  SingleChainBaseline.get_global_client g = (client_of g, Some (client_of g)).
Proof. by destruct g. Qed.

Lemma sleeps_app (tr1 tr2 : trace) : sleeps (tr1 ++ tr2) = sleeps tr1 ++ sleeps tr2.
Proof. apply omap_app. Qed.

Lemma category_round_run `{Unicode} (srv : service)
    (llm : string -> UserProfile -> result pystr)
    (search_counts : gmap string Z) (profile : UserProfile)
    (acc : BaselineDispatch.search_response) (g : option Timeout)
    (category : string) (count : Z) (tr : trace) :
  search_counts !! category = Some count ->
  BaselineDispatch.category_round srv llm search_counts profile (acc, g) category tr
  = match llm category profile with
    | Propagated _ =>
        (Returned (BaselineDispatch.category_failed acc category, g), tr)
    | Returned q =>
        let req := SingleChainBaseline.search_request (client_of g) q count in
        (Returned
           ({| BaselineDispatch.results :=
                 <[category := if fails (srv tr req) then []
                               else delivered "results" (srv tr req) count]>
                   (BaselineDispatch.results acc);
               BaselineDispatch.search_queries :=
                 <[category := q]> (BaselineDispatch.search_queries acc);
               BaselineDispatch.llm_calls_count :=
                 BaselineDispatch.llm_calls_count acc + 1 |},
            Some (client_of g)),
         tr ++ [EvPost req; EvSleep 1])
    end.
Proof.
  intros Hcount. unfold BaselineDispatch.category_round, BaselineDispatch.subscript.
  rewrite Hcount. unfold try_except at 1. unfold SmartGraph.await.
  unfold mbind at 1 2, M_bind at 1 2.
  destruct (llm category profile) as [q|e]; [|reflexivity].
  cbv beta iota. unfold mret at 1 2, M_ret at 1 2. cbv beta iota.
  unfold try_except. unfold mbind at 1, M_bind at 1.
  unfold mret at 1, M_ret at 1. cbv beta iota.
  unfold mbind at 1, M_bind at 1.
  rewrite baseline_search_vector_db_run. cbv beta iota zeta.
  unfold mbind, M_bind, mret, M_ret, sleep. simpl.
  rewrite <- app_assoc. reflexivity.
Qed.

Lemma client_of_Some (g : option Timeout) : client_of (Some (client_of g)) = client_of g.
Proof. reflexivity. Qed.

Lemma category_rounds_run `{Unicode} (srv : service)
    (llm : string -> UserProfile -> result pystr)
    (search_counts : gmap string Z) (profile : UserProfile) (todo : list string) :
  (forall c, c ∈ todo -> exists n, search_counts !! c = Some n /\ 0 <= n) ->
  forall (acc : BaselineDispatch.search_response) (g : option Timeout) (tr : trace),
  exists (out : BaselineDispatch.search_response) (g' : option Timeout) (new : trace),
    BaselineDispatch.category_rounds srv llm search_counts profile (acc, g) todo tr
    = (Returned (out, g'), tr ++ new) /\
    client_of g' = client_of g /\
    posts new
    = map (fun cq => SingleChainBaseline.search_request (client_of g) cq.2
                       (default 0 (search_counts !! cq.1)))
          (generated llm profile todo) /\
    sleeps new = replicate (length (generated llm profile todo)) 1 /\
    BaselineDispatch.llm_calls_count out
    = BaselineDispatch.llm_calls_count acc
      + Z.of_nat (length (generated llm profile todo)) /\
    (forall c, c ∉ todo ->
       BaselineDispatch.results out !! c = BaselineDispatch.results acc !! c /\
       BaselineDispatch.search_queries out !! c
       = BaselineDispatch.search_queries acc !! c) /\
    (forall c, c ∈ todo ->
       exists l q,
         BaselineDispatch.results out !! c = Some l /\
         BaselineDispatch.search_queries out !! c = Some q /\
         Z.of_nat (length l) <= default 0 (search_counts !! c) /\
         match llm c profile with
         | Returned q' => q = q'
         | Propagated _ => l = [] /\ q = []
         end).
Proof.
  induction todo as [|c rest IH]; intros Hcounts acc g tr.
  - exists acc, g, []. rewrite app_nil_r. repeat split; try done.
    + simpl. lia.
    + intros c Hc. by apply elem_of_nil in Hc.
  - destruct (Hcounts c ltac:(by left)) as (n & Hn & Hn0).
    cbn [BaselineDispatch.category_rounds]. unfold mbind, M_bind.
    rewrite (category_round_run srv llm search_counts profile acc g c n tr Hn).
    assert (forall c', c' ∈ rest -> exists n', search_counts !! c' = Some n' /\ 0 <= n')
      as Hrest by (intros c' Hc'; apply Hcounts; by right).
    unfold generated. cbn [omap list_omap]. fold (generated llm profile rest).
    destruct (llm c profile) as [q|e] eqn:Hllm; cbv beta iota zeta.
    + set (req := SingleChainBaseline.search_request (client_of g) q n).
      set (acc1 := {| BaselineDispatch.results := _ |}).
      destruct (IH Hrest acc1 (Some (client_of g)) (tr ++ [EvPost req; EvSleep 1]))
        as (out & g' & new & -> & Hg' & Hposts & Hsleeps & Hcalls & Hframe & Hin).
      exists out, g', ([EvPost req; EvSleep 1] ++ new).
      rewrite app_assoc. split; [done|]. split; [by rewrite Hg'|].
      rewrite posts_app, sleeps_app, Hposts, Hsleeps, Hcalls.
      split; [simpl; unfold req; by rewrite Hn|]. split; [done|].
      split; [subst acc1; simpl; lia|]. split.
      * intros c' Hc'. apply not_elem_of_cons in Hc' as [Hne Hc'].
        destruct (Hframe c' Hc') as [-> ->]. subst acc1. simpl.
        by rewrite !lookup_insert_ne.
      * intros c' Hc'. destruct (decide (c' ∈ rest)) as [Hr|Hr]; [by apply Hin|].
        apply elem_of_cons in Hc' as [->|?]; [|done].
        destruct (Hframe c Hr) as [-> ->]. subst acc1. simpl.
        rewrite !lookup_insert_eq. eexists _, _. split; [done|]. split; [done|].
        rewrite Hn, Hllm. simpl. split; [|done].
        destruct (fails _); [simpl; lia|by apply length_delivered].
    + destruct (IH Hrest (BaselineDispatch.category_failed acc c) g tr)
        as (out & g' & new & -> & Hg' & Hposts & Hsleeps & Hcalls & Hframe & Hin).
      exists out, g', new. split; [done|]. split; [done|].
      split; [done|]. split; [done|]. split; [done|]. split.
      * intros c' Hc'. apply not_elem_of_cons in Hc' as [Hne Hc'].
        destruct (Hframe c' Hc') as [-> ->]. simpl.
        by rewrite !lookup_insert_ne.
      * intros c' Hc'. destruct (decide (c' ∈ rest)) as [Hr|Hr]; [by apply Hin|].
        apply elem_of_cons in Hc' as [->|?]; [|done].
        destruct (Hframe c Hr) as [-> ->]. simpl.
        rewrite !lookup_insert_eq. eexists _, _. split; [done|]. split; [done|].
        rewrite Hn, Hllm. simpl. split; [lia|done].
Qed.

Lemma direct_search_all_categories_run `{Unicode} (srv : service)
    (llm : string -> UserProfile -> result pystr)
    (g : option Timeout) (profile : UserProfile) (tr : trace) :
  exists (out : BaselineDispatch.search_response) (g' : option Timeout) (new : trace),
    BaselineDispatch.direct_search_all_categories srv llm g profile tr
    = (Returned (out, g'), tr ++ new) /\
    client_of g' = client_of g.
Proof.
  unfold BaselineDispatch.direct_search_all_categories. fold categories.
  destruct (category_rounds_run srv llm (calculate_search_counts (duration profile))
              profile categories) with
    (acc := {| BaselineDispatch.results := ∅; BaselineDispatch.search_queries := ∅;
               BaselineDispatch.llm_calls_count := 1 |})
    (g := g) (tr := tr)
    as (out & g' & new & Hrun & Hg' & _).
  { intros c Hc.
    apply (proj1 (calculate_search_counts_lookup (duration profile))) in Hc as [n Hn].
    exists n. split; [done|]. apply calculate_search_counts_lookup in Hn. lia. }
  by exists out, g', new.
Qed.


(** X17: every turn of the baseline's [chat] returns, whatever the chains
    and the retrieval service do.  The reply carries the profile of the
    session as the turn leaves it, also in the reply of the [except]
    clause; that profile is the old one or the old one merged with the
    extraction, so a sufficient profile stays sufficient; the log keeps
    its entries and gains the user's message; the timeouts of the shared
    client do not change; and no request is sent and no pause made unless
    the profile passes the gate. *)
Theorem baseline_chat_keeps_session `{Unicode} (srv : service)
    (profile_chain : pystr -> UserProfile -> result ProfileInfo)
    (info_collection_chain :
       UserProfile -> pystr -> list (string * pystr) -> result pystr)
    (llm : string -> UserProfile -> result pystr)
    (itinerary_chain :
       UserProfile -> list (string * pystr) -> gmap string (list (gmap string pystr))
       -> result pystr)
    (self : BaselineChat.Chatbot) (user_message : pystr) (tr : trace) :
  exists (r : BaselineChat.reply) (self' : BaselineChat.Chatbot) (new : trace),
    BaselineChat.chat srv profile_chain info_collection_chain llm itinerary_chain
      self user_message tr = (Returned (r, self'), tr ++ new) /\
    BaselineChat.reply_profile r = BaselineChat.user_profile self' /\
    (BaselineChat.user_profile self' = BaselineChat.user_profile self \/
     exists e, BaselineChat.user_profile self'
               = update_profile (BaselineChat.user_profile self) e) /\
    (is_profile_sufficient (BaselineChat.user_profile self) = true ->
     is_profile_sufficient (BaselineChat.user_profile self') = true) /\
    (BaselineChat.conversation_history self ++ [("user"%string, user_message)])
      `prefix_of` BaselineChat.conversation_history self' /\
    client_of (BaselineChat.global_http_client self')
    = client_of (BaselineChat.global_http_client self) /\
    (new = [] \/ is_profile_sufficient (BaselineChat.user_profile self') = true).
Proof.
  unfold BaselineChat.chat, BaselineChat.with_history, BaselineChat.with_profile,
    BaselineChat.with_client.
  cbn [BaselineChat.user_profile BaselineChat.conversation_history
       BaselineChat.global_http_client].
  destruct (profile_chain user_message _) as [e|x] eqn:Hextract.
  2:{ eexists _, _, []. rewrite app_nil_r. split; [reflexivity|].
      simpl. repeat split; try done; [by left|by left]. }
  set (p := update_profile (BaselineChat.user_profile self) e).
  assert (is_profile_sufficient (BaselineChat.user_profile self) = true ->
          is_profile_sufficient p = true) as Hstay
    by (intros ?; by apply is_profile_sufficient_update).
  destruct (is_profile_sufficient p) eqn:Hp; cbn [negb]; cbv beta iota.
  - unfold try_except, mbind, M_bind.
    destruct (direct_search_all_categories_run srv llm
                (BaselineChat.global_http_client self) p tr)
      as (out & g' & new & -> & Hg').
    cbv beta iota.
    cbn [BaselineChat.user_profile BaselineChat.conversation_history
         BaselineChat.global_http_client fst snd].
    destruct (itinerary_chain _ _ _); eexists _, _, new;
      (split; [reflexivity|]); simpl; repeat split; eauto;
      try (by right); try (by apply prefix_app_r); by eexists.
  - destruct (info_collection_chain _ _ _); eexists _, _, [];
      rewrite app_nil_r; (split; [reflexivity|]); simpl; repeat split; eauto;
      try (by left); try (by apply prefix_app_r); by eexists.
Qed.

(** ** The personalized profile of the demo *)

Lemma update_personalized_profile_fields
    (p : DemoProfile.PersonalizedUserProfile) (e : ProfileInfo) :
  let p' := DemoProfile.update_personalized_profile p e in
  DemoProfile.name p' = DemoProfile.name p /\
  DemoProfile.personality p' = DemoProfile.personality p /\
  DemoProfile.travel_style p' = DemoProfile.travel_style p /\
  truthy (DemoProfile.travel_dates p')
  = truthy (info_travel_dates e) || truthy (DemoProfile.travel_dates p) /\
  truthy (DemoProfile.duration p')
  = truthy (info_duration e) || truthy (DemoProfile.duration p).
Proof.
  unfold DemoProfile.update_personalized_profile. cbv zeta.
  destruct (truthy (info_travel_dates e)) eqn:E1, (truthy (info_duration e)) eqn:E2,
    (truthy (info_group_type e)), (truthy_list (info_interests e)),
    (truthy (info_budget e)), (truthy (info_travel_region e));
    simpl; rewrite ?E1, ?E2; done.
Qed.

(** X18: [update_personalized_profile] never touches the identity (name,
    personality, travel style) and never lowers the personalized gate: a
    profile that [is_personalized_profile_sufficient] accepts is accepted
    after any merge. *)
Theorem personalized_gate_stable
    (p : DemoProfile.PersonalizedUserProfile) (e : ProfileInfo) :
  DemoProfile.is_personalized_profile_sufficient p = true ->
  DemoProfile.name (DemoProfile.update_personalized_profile p e) = DemoProfile.name p /\
  DemoProfile.personality (DemoProfile.update_personalized_profile p e)
  = DemoProfile.personality p /\
  DemoProfile.travel_style (DemoProfile.update_personalized_profile p e)
  = DemoProfile.travel_style p /\
  DemoProfile.is_personalized_profile_sufficient
    (DemoProfile.update_personalized_profile p e) = true.
Proof.
  intros Hp.
  destruct (update_personalized_profile_fields p e) as (Hn & Hpers & Hs & Hd & Hu).
  repeat split; try done.
  unfold DemoProfile.is_personalized_profile_sufficient in *.
  rewrite Hn, Hpers, Hd, Hu.
  destruct (truthy (DemoProfile.name p) && truthy (DemoProfile.personality p)); [done|].
  apply orb_true_iff in Hp as [->| ->]; by rewrite ?orb_true_r.
Qed.

Lemma personalized_gate_stable_witness :
  let p := DemoProfile.set_duration (Some (txt "2박3일")) DemoProfile.empty_profile in
  let e := {| info_travel_dates := None; info_duration := Some (txt "");
              info_group_type := Some (txt "커플"); info_interests := None;
              info_budget := None; info_travel_region := None |} in
  DemoProfile.name (DemoProfile.update_personalized_profile p e) = DemoProfile.name p /\
  DemoProfile.personality (DemoProfile.update_personalized_profile p e)
  = DemoProfile.personality p /\
  DemoProfile.travel_style (DemoProfile.update_personalized_profile p e)
  = DemoProfile.travel_style p /\
  DemoProfile.is_personalized_profile_sufficient
    (DemoProfile.update_personalized_profile p e) = true.
Proof.
  intros p e. apply (personalized_gate_stable p e). reflexivity.
Defined.

Lemma find_name_none (user_data : list (pystr * DemoProfile.user_info))
    (keys : list pystr) (message : pystr) (p : DemoProfile.PersonalizedUserProfile) :
  (forall n, n ∈ keys -> contains n message = false) ->
  DemoProfile.find_name user_data keys message p = p.
Proof.
  induction keys as [|n rest IH]; intros Hnone; [done|].
  simpl. rewrite Hnone by (by left). apply IH. intros n' Hn'. apply Hnone. by right.
Qed.

Lemma find_name_first (user_data : list (pystr * DemoProfile.user_info))
    (before after : list pystr) (n message : pystr)
    (p : DemoProfile.PersonalizedUserProfile) :
  (forall n', n' ∈ before -> contains n' message = false) ->
  contains n message = true ->
  DemoProfile.find_name user_data (before ++ n :: after) message p
  = DemoProfile.set_identity (Some n)
      (DemoProfile.info_personality (DemoProfile.get_user_info_by_name user_data n))
      (DemoProfile.info_travel_style (DemoProfile.get_user_info_by_name user_data n)) p.
Proof.
  intros Hbefore Hn. induction before as [|b before IH]; simpl.
  - by rewrite Hn.
  - rewrite Hbefore by (by left). apply IH. intros n' Hn'. apply Hbefore. by right.
Qed.

(** X19: the node names the user once, by the first known name found in
    the message.  A profile that has a name is left alone, whatever the
    message says; a profile without one is left alone when no known name
    occurs in the message, and otherwise takes the first name of the user
    table, in table order, that occurs in the message, with that user's
    personality and travel style. *)
Theorem identify_first_known_name
    (user_data : list (pystr * DemoProfile.user_info)) (message : pystr)
    (p : DemoProfile.PersonalizedUserProfile) :
  (truthy (DemoProfile.name p) = true ->
   DemoProfile.identify user_data message p = p) /\
  (truthy (DemoProfile.name p) = false ->
   (forall n, n ∈ user_data.*1 -> contains n message = false) ->
   DemoProfile.identify user_data message p = p) /\
  (truthy (DemoProfile.name p) = false ->
   forall (before after : list pystr) (n : pystr),
     user_data.*1 = before ++ n :: after ->
     (forall n', n' ∈ before -> contains n' message = false) ->
     contains n message = true ->
     DemoProfile.identify user_data message p
     = DemoProfile.set_identity (Some n)
         (DemoProfile.info_personality (DemoProfile.get_user_info_by_name user_data n))
         (DemoProfile.info_travel_style (DemoProfile.get_user_info_by_name user_data n))
         p).
Proof.
  unfold DemoProfile.identify. split; [|split].
  - by intros ->.
  - intros -> Hnone. simpl. by apply find_name_none.
  - intros -> before after n -> Hbefore Hn. simpl. by apply find_name_first.
Qed.

Lemma identify_first_known_name_witness :
  DemoProfile.identify two_users (txt "안녕 나는 지은이야") DemoProfile.empty_profile
  = DemoProfile.set_identity (Some (txt "지은")) (Some (txt "에겐녀")) (Some (txt "힐링"))
      DemoProfile.empty_profile.
Proof.
  apply (proj2 (proj2 (identify_first_known_name two_users (txt "안녕 나는 지은이야")
                         DemoProfile.empty_profile))
           eq_refl [txt "민수"] [] (txt "지은")).
  - reflexivity.
  - intros n' Hn'. apply list_elem_of_singleton in Hn'. by subst n'.
  - reflexivity.
Defined.

(** X20: the identity shortcut.  When the profile has no name yet and a
    known name occurs in the message, and the first such user of the
    table has a name and a personality that are not empty, the turn
    passes the gate at once: the node sets [profile_ready] and routes to
    the search, whatever the extraction finds, even with no date and no
    duration. *)
Theorem personalized_node_identity_shortcut
    (user_data : list (pystr * DemoProfile.user_info))
    (extract : pystr -> DemoProfile.PersonalizedUserProfile -> ProfileInfo)
    (respond : DemoProfile.PersonalizedUserProfile -> pystr -> list (string * pystr)
               -> pystr)
    (state : DemoProfile.PersonalizedGraphState)
    (before after : list pystr) (n : pystr) :
  truthy (DemoProfile.name (DemoProfile.user_profile state)) = false ->
  user_data.*1 = before ++ n :: after ->
  (forall n', n' ∈ before -> contains n' (DemoProfile.user_message state) = false) ->
  contains n (DemoProfile.user_message state) = true ->
  n <> [] ->
  truthy (DemoProfile.info_personality (DemoProfile.get_user_info_by_name user_data n))
  = true ->
  let state' :=
    DemoProfile.personalized_profile_collector_node user_data extract respond state in
  DemoProfile.profile_ready state' = true /\
  DemoProfile.should_continue_to_agents state' = "parallel_search"%string /\
  DemoProfile.name (DemoProfile.user_profile state') = Some n.
Proof.
  intros Hname Hkeys Hbefore Hn Hne Hpers state'.
  subst state'. unfold DemoProfile.personalized_profile_collector_node. cbv zeta.
  unfold DemoProfile.identify. rewrite Hname. cbn [negb]. cbv iota.
  rewrite Hkeys, find_name_first by done.
  set (named := DemoProfile.set_identity _ _ _ _).
  set (e := extract _ named).
  destruct (update_personalized_profile_fields named e) as (Hn' & Hp' & _).
  assert (DemoProfile.is_personalized_profile_sufficient
            (DemoProfile.update_personalized_profile named e) = true) as Hready.
  { unfold DemoProfile.is_personalized_profile_sufficient. rewrite Hn', Hp'.
    subst named. simpl. rewrite Hpers. by destruct n. }
  rewrite Hready. simpl. unfold DemoProfile.should_continue_to_agents. simpl.
  by rewrite Hn'.
Qed.

Lemma personalized_node_identity_shortcut_witness :
  let state' :=
    DemoProfile.personalized_profile_collector_node two_users
      (fun _ _ => empty_info) (fun _ _ _ => txt "언제 가세요?")
      (personalized_fresh_state (txt "안녕 나는 지은이야")) in
  DemoProfile.profile_ready state' = true /\
  DemoProfile.should_continue_to_agents state' = "parallel_search"%string /\
  DemoProfile.name (DemoProfile.user_profile state') = Some (txt "지은").
Proof.
  apply (personalized_node_identity_shortcut two_users
           (fun _ _ => empty_info) (fun _ _ _ => txt "언제 가세요?")
           (personalized_fresh_state (txt "안녕 나는 지은이야"))
           [txt "민수"] [] (txt "지은")).
  - reflexivity.
  - reflexivity.
  - intros n' Hn'. apply list_elem_of_singleton in Hn'. by subst n'.
  - reflexivity.
  - vm_compute. discriminate.
  - reflexivity.
Defined.

Lemma demo_duration_days_range (d : option pystr) :
  DemoProfile.duration_days d ∈ [1; 2; 3; 4; 5].
Proof.
  unfold DemoProfile.duration_days.
  destruct (truthy d); [|set_solver].
  repeat (match goal with |- context [if ?b then _ else _] => destruct b end);
    set_solver.
Qed.

Lemma demo_row (n : Z) :
  1 <= n <= 5 ->
  default (mk_counts 5 18 12 6) (DemoProfile.count_table !! n)
  = if n =? 1 then mk_counts 3 4 3 2
    else if n =? 2 then mk_counts 3 6 5 3
    else if n =? 3 then mk_counts 4 8 6 3
    else if n =? 4 then mk_counts 4 12 8 4
    else mk_counts 5 15 10 5.
Proof.
  intros Hn.
  assert (n = 1 \/ n = 2 \/ n = 3 \/ n = 4 \/ n = 5) as Hcases by lia.
  clear Hn. unfold DemoProfile.count_table.
  destruct Hcases as [->|[->|[->|[->| ->]]]];
    repeat (rewrite lookup_insert_ne by done);
    first [rewrite lookup_insert_eq | rewrite lookup_singleton_eq]; reflexivity.
Qed.

Lemma demo_row_le (n1 n2 : Z) :
  1 <= n1 -> n1 <= n2 -> n2 <= 5 ->
  counts_le (default (mk_counts 5 18 12 6) (DemoProfile.count_table !! n1))
            (default (mk_counts 5 18 12 6) (DemoProfile.count_table !! n2)).
Proof.
  intros Hlo Hle Hhi. rewrite !demo_row by lia.
  destruct (Z.eqb_spec n1 1), (Z.eqb_spec n1 2), (Z.eqb_spec n1 3), (Z.eqb_spec n1 4),
    (Z.eqb_spec n2 1), (Z.eqb_spec n2 2), (Z.eqb_spec n2 3), (Z.eqb_spec n2 4);
    try (exfalso; lia); apply mk_counts_le; lia.
Qed.

(** X21: the count table of the demo's dispatcher.  The day count it
    reads from the duration text is always between one and five (three
    when the text is missing, empty or without keyword), so the row kept
    for other day counts is never used; every answer has three to five
    hotels, four to fifteen tours, three to ten food places and two to
    five events; and the rows grow with the day count in every
    category. *)
Theorem demo_search_counts_rows (d1 d2 : option pystr) :
  1 <= DemoProfile.duration_days d1 <= 5 /\
  DemoProfile.search_counts d1 <> mk_counts 5 18 12 6 /\
  (exists h t f e : Z,
     DemoProfile.search_counts d1 = mk_counts h t f e /\
     3 <= h <= 5 /\ 4 <= t <= 15 /\ 3 <= f <= 10 /\ 2 <= e <= 5) /\
  (truthy d1 = false -> DemoProfile.search_counts d1 = mk_counts 4 8 6 3) /\
  (DemoProfile.duration_days d1 <= DemoProfile.duration_days d2 ->
   counts_le (DemoProfile.search_counts d1) (DemoProfile.search_counts d2)).
Proof.
  pose proof (demo_duration_days_range d1) as H1.
  pose proof (demo_duration_days_range d2) as H2.
  assert (1 <= DemoProfile.duration_days d1 <= 5) as R1 by (set_unfold; lia).
  assert (1 <= DemoProfile.duration_days d2 <= 5) as R2 by (set_unfold; lia).
  clear H1 H2. unfold DemoProfile.search_counts.
  assert (truthy d1 = false -> DemoProfile.duration_days d1 = 3) as Hdefault
    by (unfold DemoProfile.duration_days; by intros ->).
  split; [done|]. split; [|split; [|split]].
  - rewrite demo_row by done. intros Heq.
    apply (f_equal (fun m => default 0 (m !! "tour"%string))) in Heq.
    assert (forall h t f e, default 0 (mk_counts h t f e !! "tour"%string) = t) as Ht
      by reflexivity.
    destruct (DemoProfile.duration_days d1 =? 1), (DemoProfile.duration_days d1 =? 2),
      (DemoProfile.duration_days d1 =? 3), (DemoProfile.duration_days d1 =? 4);
      rewrite !Ht in Heq; discriminate.
  - rewrite demo_row by done.
    destruct (DemoProfile.duration_days d1 =? 1), (DemoProfile.duration_days d1 =? 2),
      (DemoProfile.duration_days d1 =? 3), (DemoProfile.duration_days d1 =? 4);
      eexists _, _, _, _; (split; [reflexivity|lia]).
  - intros Hd. rewrite (Hdefault Hd). reflexivity.
  - intros Hle. apply demo_row_le; lia.
Qed.

Lemma demo_search_counts_rows_witness :
  DemoProfile.search_counts None = mk_counts 4 8 6 3.
Proof.
  apply (demo_search_counts_rows None None). reflexivity.
Defined.

(** ** The profile summary and the keyword extraction *)

(** X22: the summary of a profile is the placeholder ["정보 없음"] exactly
    when none of the six fields the gate counts holds a value; as soon as
    one does, the summary starts with that field's label and is never the
    placeholder. *)
Theorem get_summary_placeholder (p : UserProfile) :
  ProfileSummary.get_summary p = txt "정보 없음" <-> fields_set p = [].
Proof.
  unfold ProfileSummary.get_summary, fields_set.
  destruct (truthy (travel_dates p)), (truthy (duration p)),
    (truthy (group_type p)), (interests p) as [|tag tags],
    (truthy (budget p)), (truthy (travel_region p));
    cbv zeta; cbn [app ProfileSummary.join];
    (split; [|try discriminate; try reflexivity]);
    try reflexivity;
    intros Heq; exfalso; vm_compute in Heq; discriminate Heq.
Qed.

Lemma starts_with_app_l (a b s : pystr) :
  starts_with (a ++ b) s = true -> starts_with a s = true.
Proof.
  revert s. induction a as [|x a IH]; intros s Hs; [by destruct s|].
  destruct s as [|y s]; [discriminate|]. simpl in *.
  case_decide; [by apply IH|discriminate].
Qed.

Lemma contains_app_l (a b s : pystr) :
  contains (a ++ b) s = true -> contains a s = true.
Proof.
  induction s as [|y s IH]; simpl; intros Hs.
  - rewrite orb_false_r in *. by eapply starts_with_app_l.
  - apply orb_true_iff in Hs as [Hs|Hs]; apply orb_true_iff.
    + left. by eapply starts_with_app_l.
    + right. by apply IH.
Qed.

Lemma extract_interests_sublist (message_lower : pystr) :
  BaselineExtract.extract_interests message_lower
    `sublist_of` [txt "맛집"; txt "힐링"; txt "액티비티"; txt "사진촬영"].
Proof.
  unfold BaselineExtract.extract_interests.
  destruct (any_in [txt "맛집"; txt "음식"; txt "먹거리"] message_lower),
    (any_in [txt "힐링"; txt "휴식"; txt "쉬고"] message_lower),
    (any_in [txt "액티비티"; txt "체험"; txt "활동"] message_lower),
    (any_in [txt "사진"; txt "인스타"; txt "감성"] message_lower);
    cbv zeta; cbn [app];
    repeat first [apply sublist_nil | apply sublist_skip; [] | apply sublist_cons
                 | apply sublist_skip].
Qed.

(** X23: what the keyword extraction can give.  It never sets the dates
    or the budget; a text it sets is never empty, so merging it always
    takes effect; the tags are drawn from four fixed tags, in a fixed
    order, none twice; and the region ["제주 동쪽"] is only ever given for
    the word ["동쪽"]: a message that names ["성산일출봉"] has matched
    ["성산"] first and is put in ["서귀포"]. *)
Theorem extract_profile_simple_shape `{Unicode} (message : pystr) :
  let e := BaselineExtract.extract_profile_simple message in
  info_travel_dates e = None /\ info_budget e = None /\
  (forall f : scalar_field,
     extracted_field f e = None \/ truthy (extracted_field f e) = true) /\
  extracted_tags e `sublist_of` [txt "맛집"; txt "힐링"; txt "액티비티"; txt "사진촬영"] /\
  NoDup (extracted_tags e) /\
  (info_travel_region e = Some (txt "제주 동쪽") ->
   contains (txt "동쪽") (lower message) = true).
Proof.
  intros e. subst e. unfold BaselineExtract.extract_profile_simple. cbv zeta.
  cbn [info_travel_dates info_budget info_travel_region].
  split; [done|]. split; [done|]. split; [|split; [|split]].
  - intros []; cbn [extracted_field info_travel_dates info_duration info_group_type
                    info_budget info_travel_region]; try (by left).
    + unfold BaselineExtract.extract_duration.
      repeat (match goal with |- context [if ?b then _ else _] => destruct b end);
        (by left) || (by right).
    + unfold BaselineExtract.extract_group_type.
      repeat (match goal with |- context [if ?b then _ else _] => destruct b end);
        (by left) || (by right).
    + unfold BaselineExtract.extract_travel_region.
      repeat (match goal with |- context [if ?b then _ else _] => destruct b end);
        (by left) || (by right).
  - unfold extracted_tags. cbn [info_interests].
    pose proof (extract_interests_sublist (lower message)) as Hsub.
    destruct (BaselineExtract.extract_interests (lower message)); exact Hsub.
  - unfold extracted_tags. cbn [info_interests].
    pose proof (extract_interests_sublist (lower message)) as Hsub.
    assert (NoDup [txt "맛집"; txt "힐링"; txt "액티비티"; txt "사진촬영"]) as Hnd
      by (apply (bool_decide_unpack _); by vm_compute).
    destruct (BaselineExtract.extract_interests (lower message)) eqn:Hi;
      [constructor|]. simpl. eapply sublist_NoDup; eauto.
  - unfold BaselineExtract.extract_travel_region.
    destruct (any_in [txt "제주시"; txt "제주 시내"; txt "공항 근처"] (lower message));
      [intros Heq; vm_compute in Heq; discriminate|].
    destruct (any_in [txt "서귀포"; txt "중문"; txt "성산"] (lower message)) eqn:Hsg;
      [intros Heq; vm_compute in Heq; discriminate|].
    destruct (any_in [txt "서쪽"; txt "한림"; txt "협재"] (lower message));
      [intros Heq; vm_compute in Heq; discriminate|].
    destruct (any_in [txt "동쪽"; txt "성산일출봉"] (lower message)) eqn:Hd;
      [|discriminate].
    intros _. unfold any_in in *. simpl in Hsg, Hd.
    rewrite orb_false_r in Hd. apply orb_true_iff in Hd as [Hd|Hd]; [done|].
    exfalso.
    assert (contains (txt "성산") (lower message) = true) as Hs.
    { apply (contains_app_l (txt "성산") (txt "일출봉")).
      replace (txt "성산" ++ txt "일출봉") with (txt "성산일출봉") by reflexivity.
      exact Hd. }
    rewrite Hs in Hsg. rewrite !orb_true_r in Hsg. discriminate.
Qed.

(** ** The log of a turn, and the cost of a dead service *)

(** X24: one run of the graph of [smart_chatbot.py] only appends to the
    conversation log: the user's message, and after it the reply the turn
    returns.  The one reply that is returned without being logged is the
    fixed apology of the response node. *)
Theorem invoke_graph_log `{Unicode}
    (srv : service) (extract : pystr -> UserProfile -> ProfileInfo)
    (respond : UserProfile -> pystr -> list (string * pystr) -> pystr)
    (generate_query : string -> UserProfile -> result pystr)
    (response_llm : GraphState -> result pystr)
    (state state' : GraphState) (tr tr' : trace) :
  SmartGraph.invoke_graph srv extract respond generate_query response_llm state tr
  = (Returned state', tr') ->
  (conversation_history state'
   = conversation_history state ++
       [("user"%string, user_message state); ("assistant"%string, final_response state')]) \/
  (conversation_history state'
   = conversation_history state ++ [("user"%string, user_message state)] /\
   final_response state' = response_apology).
Proof.
  intros Hrun.
  destruct (invoke_graph_run srv extract respond generate_query response_llm state tr)
    as [[Hf Heq]|[[_ [e Heq]]|[Ht (h & t & f & e & new & Heq)]]];
    rewrite Heq in Hrun.
  - injection Hrun as <- _. left. revert Hf.
    unfold profile_collector_node. cbv zeta.
    destruct (is_profile_sufficient _);
      cbn [negb profile_ready conversation_history final_response];
      [discriminate|].
    intros _. by rewrite <- app_assoc.
  - discriminate.
  - injection Hrun as <- _. revert Ht.
    unfold profile_collector_node. cbv zeta.
    destruct (is_profile_sufficient _);
      cbn [negb profile_ready]; [|discriminate]. intros _.
    destruct (response_llm _);
      unfold SmartGraph.set_response, SmartGraph.set_results;
      cbn [conversation_history final_response user_message].
    + left. by rewrite <- app_assoc.
    + right. split; [reflexivity|]. unfold response_apology. reflexivity.
Qed.

Lemma invoke_graph_log_witness :
  let state := SmartGraph.fresh_state (txt "안녕") in
  let state' :=
    profile_collector_node extract_nothing (fun _ _ _ => txt "언제 가세요?") state in
  (conversation_history state'
   = conversation_history state ++
       [("user"%string, user_message state); ("assistant"%string, final_response state')]) \/
  (conversation_history state'
   = conversation_history state ++ [("user"%string, user_message state)] /\
   final_response state' = response_apology).
Proof.
  intros state state'.
  apply (@invoke_graph_log ascii_unicode failing_service extract_nothing
           (fun _ _ _ => txt "언제 가세요?") (fixed_query "제주 추천")
           (fun _ => Returned (txt "일정")) state state' [] []).
  reflexivity.
Defined.

Lemma search_vector_db_dead (srv : service) (q category : pystr) (k : Z) (tr : trace) :
  (forall tr' req, fails (srv tr' req) = true) ->
  SmartChatbot.search_vector_db srv q category k tr
  = (Returned [],
     tr ++ [EvPost (attempt_request q k 0); EvSleep 1;
            EvPost (attempt_request q k 1); EvSleep 2;
            EvPost (attempt_request q k 2)]).
Proof.
  intros Hdead.
  destruct (smart_retry_contract srv q category k tr)
    as [[F _]|[(_ & F & _)|(_ & _ & ->)]].
  - by rewrite Hdead in F.
  - by rewrite Hdead in F.
  - by rewrite Hdead.
Qed.

Lemma seconds_asleep_app (a b : trace) :
  seconds_asleep (a ++ b) = seconds_asleep a + seconds_asleep b.
Proof.
  unfold seconds_asleep. rewrite sleeps_app, foldr_app.
  induction (sleeps a) as [|x l IHl]; simpl; lia.
Qed.

Lemma batches_from_dead (srv : service) (q category : pystr)
    (total_count batch_size batches_needed : Z) (rounds : nat) (batch_num : Z)
    (tr : trace) :
  (forall tr' req, fails (srv tr' req) = true) ->
  20 < total_count ->
  batch_num + Z.of_nat rounds = batches_needed ->
  exists new : trace,
    BatchSplitter.batches_from srv q category total_count batch_size batches_needed
      rounds batch_num [] tr = (Returned [], tr ++ new) /\
    length (posts new) = (3 * rounds)%nat /\
    seconds_asleep new = 5 * Z.of_nat rounds - (if decide (rounds = 0%nat) then 0 else 2).
Proof.
  intros Hdead Htotal. revert batch_num tr.
  induction rounds as [|rounds IH]; intros batch_num tr Hnum.
  - exists []. by rewrite app_nil_r.
  - cbn [BatchSplitter.batches_from]. unfold mbind at 1, M_bind at 1.
    unfold BatchSplitter.batch_body, try_except. unfold mbind at 1, M_bind at 1.
    rewrite search_vector_db_dead by done.
    rewrite !filter_nil. cbn [app length].
    change (Z.of_nat 0) with 0.
    destruct (Z.geb_spec 0 total_count) as [Hge|_]; [lia|].
    assert ((0 >=? total_count / 2) = false) as ->.
    { rewrite Z.geb_leb. apply Z.leb_gt, Z.div_str_pos. lia. }
    cbn [andb]. unfold_effects.
    destruct (Z.ltb_spec batch_num (batches_needed - 1)) as [Hlt|Hlast].
    + cbn [fst snd].
      match goal with |- context [BatchSplitter.batches_from _ _ _ _ _ _ _ _ _ ?t] =>
        destruct (IH (batch_num + 1) t ltac:(lia)) as (new & -> & Hp & Hs) end.
      match goal with |- context [((tr ++ ?l1) ++ ?l2) ++ new] =>
        exists (l1 ++ l2 ++ new) end.
      rewrite <- !app_assoc. split; [reflexivity|].
      rewrite !posts_app, !seconds_asleep_app, !length_app, Hp, Hs.
      rewrite decide_False by lia. rewrite (decide_False (P := S rounds = 0%nat)) by lia.
      unfold seconds_asleep, posts, sleeps.
      cbn [omap list_omap length foldr]. split; lia.
    + assert (rounds = 0%nat) as -> by lia.
      cbn [fst snd BatchSplitter.batches_from]. unfold_effects.
      eexists. split; [reflexivity|].
      unfold seconds_asleep, posts, sleeps.
      cbn [omap list_omap length foldr]. split; [done|].
      rewrite (decide_False (P := 1%nat = 0%nat)) by lia. lia.
Qed.

(** X25: what a dead retrieval service costs the batch splitter.  When
    every attempt fails, a request for more than twenty items with a
    positive batch size runs all [ceil(total_count / batch_size)]
    batches, three attempts each, sleeps three seconds of backoff in
    every batch and two seconds between batches, and returns the empty
    list. *)
Theorem search_with_batching_dead_service
    (srv : service) (q category : pystr) (total_count batch_size : Z) (tr : trace) :
  (forall tr' req, fails (srv tr' req) = true) ->
  20 < total_count -> 0 < batch_size ->
  let batches := (total_count + batch_size - 1) / batch_size in
  exists new : trace,
    BatchSplitter.search_with_batching srv q category total_count batch_size tr
    = (Returned [], tr ++ new) /\
    Z.of_nat (length (posts new)) = 3 * batches /\
    seconds_asleep new = 5 * batches - 2.
Proof.
  intros Hdead Htotal Hbs batches. unfold BatchSplitter.search_with_batching.
  destruct (Z.leb_spec total_count 20); [lia|].
  unfold BatchSplitter.floordiv. destruct (Z.eqb_spec batch_size 0); [lia|].
  unfold mbind at 1, M_bind at 1. unfold mret at 1, M_ret at 1.
  unfold mbind, M_bind. fold batches.
  assert (1 <= batches) as Hpos.
  { subst batches. apply Z.div_le_lower_bound; lia. }
  destruct (batches_from_dead srv q category total_count batch_size batches
              (Z.to_nat batches) 0 tr Hdead Htotal ltac:(lia))
    as (new & -> & Hp & Hs).
  exists new. split.
  { unfold mret, M_ret, slice_to. destruct (0 <=? total_count); by rewrite take_nil. }
  split; [lia|].
  rewrite Hs. rewrite decide_False by lia. lia.
Qed.

Lemma search_with_batching_dead_service_witness :
  exists new : trace,
    BatchSplitter.search_with_batching failing_service (txt "제주 맛집 추천")
      (txt "food") 21 3 []
    = (Returned [], [] ++ new) /\
    Z.of_nat (length (posts new)) = 3 * ((21 + 3 - 1) / 3) /\
    seconds_asleep new = 5 * ((21 + 3 - 1) / 3) - 2.
Proof.
  apply (search_with_batching_dead_service failing_service (txt "제주 맛집 추천")
           (txt "food") 21 3 []).
  - intros tr' req. reflexivity.
  - lia.
  - lia.
Defined.
